(** * Durin: command codec, links, telemetry aggregator and DVS control plane

    A shallow embedding of the host-side control layer of the Durin robot
    (src/durin/actuator.py, src/durin/io/network.py, src/durin/sensor.py,
    src/durin/controller/server.py) together with the properties its
    specification states about it.

    Conventions.
    - Python [int] is [Z]; a byte of a [bytearray]/[bytes] is a [Z] in
      [0, 256); list positions are [nat].
    - A call that can raise returns a [result]: [Ok v] or [Raise e].
    - Code that talks to the outside world (queues, sockets, processes)
      threads its state explicitly and takes the outcome of every external
      call as an argument. *)

From Stdlib Require Import ZArith List String Ascii Bool Lia DecimalString.
From Stdlib Require QArith Strings.Byte.
From stdpp Require Import base list.
Import ListNotations.

(* ===================================================================== *)
(** * Part I: definitions                                                 *)
(* ===================================================================== *)

(** ** Exceptions and the error monad *)

Inductive exn : Type :=
| StructError            (* struct.error *)
| OverflowError
| ValueError
| IndexError
| TypeError
| AttributeError
| RecursionError
| QueueFull              (* queue.Full *)
| QueueEmpty             (* queue.Empty *)
| BrokenPipeError
| ConnectionRefusedError
| TimeoutExpired         (* subprocess.TimeoutExpired *)
| OSError.

Inductive result (A : Type) : Type :=
| Ok (a : A)
| Raise (e : exn).
Arguments Ok {A} a.
Arguments Raise {A} e.

Definition bind {A B : Type} (m : result A) (k : A -> result B) : result B :=
  match m with
  | Ok a => k a
  | Raise e => Raise e
  end.

Declare Scope py_scope.
Delimit Scope py_scope with py.
Notation "'let*' x ':=' m 'in' k" := (bind m (fun x => k))
  (at level 10, x name, m at level 100, k at level 200) : py_scope.

(** Stateful code runs in a world [W] (the objects it mutates, the record
    of the external calls it made, the outcomes the environment still has
    to deliver). An exception keeps the world as it was when it was raised,
    as in Python. *)
Definition IO (W A : Type) : Type := W -> result A * W.

Definition ret {W A : Type} (a : A) : IO W A := fun w => (Ok a, w).

Definition raise {W A : Type} (e : exn) : IO W A := fun w => (Raise e, w).

Definition lift {W A : Type} (r : result A) : IO W A := fun w => (r, w).

Definition iobind {W A B : Type} (m : IO W A) (k : A -> IO W B) : IO W B :=
  fun w =>
    match m w with
    | (Ok a, w') => k a w'
    | (Raise e, w') => (Raise e, w')
    end.

(** [try: m except <handles>: handler] *)
Definition try_except {W A : Type} (m : IO W A) (handles : exn -> bool)
    (handler : exn -> IO W A) : IO W A :=
  fun w =>
    match m w with
    | (Ok a, w') => (Ok a, w')
    | (Raise e, w') => if handles e then handler e w' else (Raise e, w')
    end.

Definition get {W : Type} : IO W W := fun w => (Ok w, w).

Definition modify {W : Type} (f : W -> W) : IO W unit := fun w => (Ok tt, f w).

Notation "'do*' x ':=' m 'in' k" := (iobind m (fun x => k))
  (at level 10, x name, m at level 100, k at level 200) : py_scope.
Notation "m ';;' k" := (iobind m (fun _ => k))
  (at level 100, k at level 200, right associativity) : py_scope.

(** Python's [None]. *)
Inductive NoneType : Type := PyNone.

(** ** Python built-ins used by the codecs *)

Module Py.
Local Open Scope Z_scope.
Local Open Scope py_scope.

Definition bytearray := list Z.

(** [bytearray([0] * n)] *)
Definition zeros (n : nat) : bytearray := repeat 0 n.

(** [data[i] = v] on a bytearray: the index is checked first, then the
    value must be in [range(0, 256)]. *)
Definition setitem (data : bytearray) (i : nat) (v : Z) : result bytearray :=
  if (i <? length data)%nat then
    if (0 <=? v) && (v <? 256) then Ok (<[i := v]> data) else Raise ValueError
  else Raise IndexError.

(** [data[a:b] = bs] on a bytearray, for [0 <= a <= b]: the slice bounds
    are clamped to the length and the slice is replaced by [bs]. *)
Definition setslice (data : bytearray) (a b : nat) (bs : list Z) : bytearray :=
  take (Nat.min a (length data)) data ++ bs ++
  drop (Nat.max (Nat.min a (length data)) (Nat.min b (length data))) data.

(** The [n] low-order bytes of [x], least significant first. *)
Fixpoint le_bytes (n : nat) (x : Z) : list Z :=
  match n with
  | O => []
  | S n' => Z.land x 255 :: le_bytes n' (Z.shiftr x 8)
  end.

(** [struct.pack("<h", x)]: two's complement, little endian; raises
    [struct.error] outside [-32768, 32767]. *)
Definition pack_h (x : Z) : result (list Z) :=
  if (-32768 <=? x) && (x <=? 32767) then Ok (le_bytes 2 x)
  else Raise StructError.

(** [x.to_bytes(n, "little")] (unsigned): raises [OverflowError] for a
    negative [x] or one that does not fit [n] bytes. *)
Definition to_bytes (x : Z) (n : nat) : result (list Z) :=
  if (0 <=? x) && (x <? 256 ^ Z.of_nat n) then Ok (le_bytes n x)
  else Raise OverflowError.

(** [int.from_bytes(bs, "little")] *)
Fixpoint from_bytes (bs : list Z) : Z :=
  match bs with
  | [] => 0
  | b :: bs' => b + 256 * from_bytes bs'
  end.

(** [data[a:b]] (read), for [0 <= a]: out-of-range bounds are clamped. *)
Definition slice {A : Type} (data : list A) (a b : nat) : list A :=
  take (b - a) (drop a data).

(** [s.split(sep)] for a one-character separator. *)
Fixpoint split (sep : ascii) (s : string) : list string :=
  match s with
  | EmptyString => [EmptyString]
  | String c s' =>
      if Ascii.eqb c sep then EmptyString :: split sep s'
      else match split sep s' with
           | h :: t => String c h :: t
           | [] => [String c EmptyString]
           end
  end.

(** [int(s)] for an ASCII string, base 10: optional surrounding white
    space, an optional sign, then decimal digits, where single underscores
    may separate digits. Anything else raises [ValueError]. *)
Definition is_space (c : ascii) : bool :=
  let n := nat_of_ascii c in
  ((9 <=? n) && (n <=? 13) || (28 <=? n) && (n <=? 32))%nat.

Definition digit_of (c : ascii) : option Z :=
  let n := nat_of_ascii c in
  if ((48 <=? n) && (n <=? 57))%nat then Some (Z.of_nat n - 48) else None.

Fixpoint lstrip (s : list ascii) : list ascii :=
  match s with
  | c :: s' => if is_space c then lstrip s' else s
  | [] => []
  end.

Definition strip (s : list ascii) : list ascii :=
  rev (lstrip (rev (lstrip s))).

(** [digits acc after_digit s]: [after_digit] tells whether the previous
    character was a digit (an underscore is accepted only then, and the
    literal must not end with one). *)
Fixpoint digits (acc : Z) (after_digit : bool) (s : list ascii) : option Z :=
  match s with
  | [] => if after_digit then Some acc else None
  | c :: s' =>
      match digit_of c with
      | Some d => digits (10 * acc + d) true s'
      | None =>
          if Ascii.eqb c "_"%char && after_digit then digits acc false s'
          else None
      end
  end.

Definition int_of_str (s : string) : result Z :=
  let body := strip (list_ascii_of_string s) in
  let parsed :=
    match body with
    | c :: rest =>
        if Ascii.eqb c "-"%char then option_map Z.opp (digits 0 false rest)
        else if Ascii.eqb c "+"%char then digits 0 false rest
        else digits 0 false body
    | [] => None
    end in
  match parsed with
  | Some z => Ok z
  | None => Raise ValueError
  end.

(** [l[i]] on a Python list, for [0 <= i]. *)
Definition getitem {A : Type} (l : list A) (i : nat) : result A :=
  match l !! i with
  | Some x => Ok x
  | None => Raise IndexError
  end.

(** [str(n)] for a non-negative integer. *)
Definition str_of_Z (n : Z) : string :=
  NilZero.string_of_uint (N.to_uint (Z.to_N n)).

End Py.

(** ** src/durin/io/network.py: the TCP link and the DVS client *)

Module Network.
Import Py.
Local Open Scope py_scope.

(** *** [multiprocessing.Queue]

    A bounded FIFO: [maxsize <= 0] means unbounded. [items] are the
    objects put and not yet taken. After [close()] every [put] raises
    [ValueError] (CPython 3.8 and later). *)
Record Queue (A : Type) : Type := mkQueue {
  maxsize : Z;
  items : list A;
  closed : bool
}.
Arguments mkQueue {A}.
Arguments maxsize {A}.
Arguments items {A}.
Arguments closed {A}.

Definition Queue_new {A : Type} (maxsize : Z) : Queue A :=
  mkQueue maxsize [] false.

Definition Queue_full {A : Type} (q : Queue A) : bool :=
  (0 <? maxsize q)%Z && (maxsize q <=? Z.of_nat (length (items q)))%Z.

Definition Queue_close {A : Type} (q : Queue A) : Queue A :=
  mkQueue (maxsize q) (items q) true.

(** What [put] did, next to raising or returning: [waited] is set when the
    call had to wait for a free slot (only a blocking [put] does). *)
Record put_result (A : Type) : Type := mkPut {
  put_value : result NoneType;
  put_queue : Queue A;
  put_waited : bool
}.
Arguments mkPut {A}.
Arguments put_value {A}.
Arguments put_queue {A}.
Arguments put_waited {A}.

(** [q.put(obj, block, timeout)], with no other process taking items in
    the meantime: a non-blocking put ignores the timeout. *)
Definition Queue_put {A T : Type} (q : Queue A) (obj : A) (block : bool)
    (timeout : option T) : put_result A :=
  if closed q then mkPut (Raise ValueError) q false
  else if Queue_full q then mkPut (Raise QueueFull) q block
  else mkPut (Ok PyNone) (mkQueue (maxsize q) (items q ++ [obj]) false) false.


(** *** [TCPLink]

    The two queues and the socket; the sender and receiver workers
    ([RunnableConsumer]/[RunnableProducer]) run in other processes and are
    not part of this state. *)
Record TCPLink : Type := mkTCPLink {
  buffer_send : Queue bytearray;
  buffer_receive : Queue bytearray;
  sock_closed : bool
}.

(** The state [__init__] leaves after a successful connect. *)
Definition TCPLink_new (buffer_size_send buffer_size_receive : Z) : TCPLink :=
  mkTCPLink (Queue_new buffer_size_send) (Queue_new buffer_size_receive) false.

(** The part of [stop()] that acts on this state: the socket and both
    queues are closed (the two worker [stop()] calls act on the worker
    processes). *)
Definition TCPLink_stop (l : TCPLink) : TCPLink :=
  mkTCPLink (Queue_close (buffer_send l)) (Queue_close (buffer_receive l)) true.

(** The calls a link makes on its outbound queue, and whether one of them
    waited. *)
Inductive link_event : Type :=
| EvPut (obj : bytearray) (block : bool).

Record link_world : Type := mkLinkWorld {
  link : TCPLink;
  link_trace : list link_event;
  link_waited : bool
}.

(** [self.buffer_send.put(command, block=False, timeout=timeout)] *)
Definition buffer_send_put {T : Type} (command : bytearray) (block : bool)
    (timeout : option T) : IO link_world NoneType :=
  fun w =>
    let r := Queue_put (buffer_send (link w)) command block timeout in
    (put_value r,
     mkLinkWorld
       (mkTCPLink (put_queue r) (buffer_receive (link w)) (sock_closed (link w)))
       (link_trace w ++ [EvPut command block])
       (link_waited w || put_waited r)).

Definition is_QueueFull (e : exn) : bool :=
  match e with QueueFull => true | _ => false end.

Definition TCPLink_send {T : Type} (command : bytearray) (timeout : T)
    : IO link_world NoneType :=
  try_except
    (buffer_send_put command false (Some timeout) ;; ret PyNone)
    is_QueueFull
    (fun _ => ret PyNone).



(** *** [DVSClient]

    [sock] is [None] or a socket object (named by a number). The outcomes
    of the socket calls come from a script: one entry per [send] or
    [connect], [None] for success or [Some e] for the exception raised;
    an exhausted script means success. [depth] is the room left on the
    interpreter's call stack: [_send_message] calls itself. *)
Inductive sock_event : Type :=
| EvSocket (id : nat)
| EvConnect (id : nat) (host : string) (port : Z)
| EvSend (id : nat) (message : list Z)
| EvClose (id : nat).

Record DVSClient : Type := mkDVSClient {
  sock : option nat;
  address : string * Z
}.

Record client_world : Type := mkClientWorld {
  client : DVSClient;
  next_socket : nat;
  script : list (option exn);
  sock_trace : list sock_event
}.

Definition DVSClient_new (host : string) (port : Z) : DVSClient :=
  mkDVSClient None (host, port).

Definition set_sock (s : option nat) : IO client_world unit :=
  modify (fun w =>
    mkClientWorld (mkDVSClient s (address (client w)))
                  (next_socket w) (script w) (sock_trace w)).

Definition emit (e : sock_event) : IO client_world unit :=
  modify (fun w =>
    mkClientWorld (client w) (next_socket w) (script w) (sock_trace w ++ [e])).

(** Take the next outcome from the script. *)
Definition external : IO client_world NoneType :=
  fun w =>
    match script w with
    | [] => (Ok PyNone, w)
    | o :: rest =>
        (match o with None => Ok PyNone | Some e => Raise e end,
         mkClientWorld (client w) (next_socket w) rest (sock_trace w))
    end.

(** [socket.socket(...)] *)
Definition socket_new : IO client_world nat :=
  fun w =>
    (Ok (next_socket w),
     mkClientWorld (client w) (S (next_socket w)) (script w)
                   (sock_trace w ++ [EvSocket (next_socket w)])).

Definition _init_connection : IO client_world NoneType :=
  do* s := socket_new in
  set_sock (Some s) ;;
  do* w := get in
  emit (EvConnect s (fst (address (client w))) (snd (address (client w)))) ;;
  external ;;
  ret PyNone.

(** [self.sock.send(message)]: [AttributeError] when [self.sock] is
    [None]. *)
Definition sock_send (message : list Z) : IO client_world NoneType :=
  do* w := get in
  match sock (client w) with
  | None => raise AttributeError
  | Some s => emit (EvSend s message) ;; external
  end.

Definition is_BrokenPipe_or_Attribute (e : exn) : bool :=
  match e with BrokenPipeError | AttributeError => true | _ => false end.

Definition is_ConnectionRefused (e : exn) : bool :=
  match e with ConnectionRefusedError => true | _ => false end.

Fixpoint _send_message (depth : nat) (message : list Z)
    : IO client_world NoneType :=
  match depth with
  | O => raise RecursionError
  | S depth' =>
      try_except (sock_send message)
        is_BrokenPipe_or_Attribute
        (fun _ =>
           try_except _init_connection
             is_ConnectionRefused
             (fun _ => raise ConnectionRefusedError) ;;
           _send_message depth' message)
  end.

Definition DVSClient_stop_stream (depth : nat) : IO client_world NoneType :=
  do* w := get in
  match sock (client w) with
  | Some s =>
      _send_message depth [1%Z] ;;
      do* w := get in
      match sock (client w) with
      | Some s' => emit (EvClose s')
      | None => raise AttributeError
      end ;;
      set_sock None ;;
      ret PyNone
  | None => ret PyNone
  end.

Section StartStream.

(** [int(ipaddress.ip_address(host))], the address parser of the standard
    library, applied to the [host] argument. *)
Variable ip_address_int : string -> result Z.

Definition DVSClient_start_stream (depth : nat) (host : string) (port : Z)
    : IO client_world NoneType :=
  let data := zeros 7 in
  do* data := lift (setitem data 0 0%Z) in
  do* n := lift (ip_address_int host) in
  do* bs := lift (to_bytes n 4) in
  let data := setslice data 1 5 bs in
  do* bs := lift (to_bytes port 2) in
  let data := setslice data 5 7 bs in
  _send_message depth data.

End StartStream.

End Network.

(** ** src/durin/actuator.py: the command codec *)

Module Actuator.
Import Py Network.
Local Open Scope Z_scope.
Local Open Scope py_scope.

(** The seven subclasses of [Command]; the fields are the attributes set by
    the constructors (already passed through [int(...)] where the
    constructor does so). *)
Inductive Command : Type :=
| PowerOff
| Move (vel_x vel_y rot : Z)
| MoveWheels (ne nw sw se : Z)
| PollAll
| PollSensor (sensor_id : Z)
| StreamOn (host : string) (port period : Z)
| StreamOff.

Definition cmd_id (c : Command) : Z :=
  match c with
  | PowerOff => 1
  | Move _ _ _ => 2
  | MoveWheels _ _ _ _ => 3
  | PollAll => 16
  | PollSensor _ => 17
  | StreamOn _ _ _ => 18
  | StreamOff => 19
  end.

Definition PowerOff_encode : result bytearray :=
  let data := zeros 1 in
  setitem data 0 (cmd_id PowerOff).

Definition Move_encode (vel_x vel_y rot : Z) : result bytearray :=
  let data := zeros 7 in
  let* data := setitem data 0 (cmd_id (Move vel_x vel_y rot)) in
  let* b := pack_h vel_x in
  let data := setslice data 1 3 b in
  let* b := pack_h vel_y in
  let data := setslice data 3 5 b in
  let* b := pack_h (- rot) in
  let data := setslice data 5 7 b in
  Ok data.

Definition MoveWheels_encode (ne nw sw se : Z) : result bytearray :=
  let data := zeros 9 in
  let* data := setitem data 0 (cmd_id (MoveWheels ne nw sw se)) in
  let* b := pack_h (- se) in
  let data := setslice data 1 3 b in
  let* b := pack_h sw in
  let data := setslice data 3 5 b in
  let* b := pack_h (- ne) in
  let data := setslice data 5 7 b in
  let* b := pack_h nw in
  let data := setslice data 7 9 b in
  Ok data.

Definition PollAll_encode : result bytearray :=
  let data := zeros 1 in
  setitem data 0 (cmd_id PollAll).

Definition PollSensor_encode (sensor_id : Z) : result bytearray :=
  let data := zeros 2 in
  let* data := setitem data 0 (cmd_id (PollSensor sensor_id)) in
  let* b := to_bytes sensor_id 1 in
  let data := setslice data 1 2 b in
  Ok data.

Definition StreamOn_encode (host : string) (port period : Z) : result bytearray :=
  let data := zeros 9 in
  let* data := setitem data 0 (cmd_id (StreamOn host port period)) in
  let host := split "."%char host in
  let* h := getitem host 0 in let* v := int_of_str h in let* data := setitem data 1 v in
  let* h := getitem host 1 in let* v := int_of_str h in let* data := setitem data 2 v in
  let* h := getitem host 2 in let* v := int_of_str h in let* data := setitem data 3 v in
  let* h := getitem host 3 in let* v := int_of_str h in let* data := setitem data 4 v in
  let* b := to_bytes port 2 in
  let data := setslice data 5 7 b in
  let* b := to_bytes period 2 in
  let data := setslice data 7 9 b in
  Ok data.

Definition StreamOff_encode : result bytearray :=
  let data := zeros 1 in
  setitem data 0 (cmd_id StreamOff).

(** Dispatch of [action.encode()] on the class of [action]. *)
Definition encode (c : Command) : result bytearray :=
  match c with
  | PowerOff => PowerOff_encode
  | Move vx vy rot => Move_encode vx vy rot
  | MoveWheels ne nw sw se => MoveWheels_encode ne nw sw se
  | PollAll => PollAll_encode
  | PollSensor sid => PollSensor_encode sid
  | StreamOn host port period => StreamOn_encode host port period
  | StreamOff => StreamOff_encode
  end.

(** [Command] is an abstract base class: anything with an [encode()]
    method can be handed to the actuator. *)
Class Encodable (A : Type) : Type := encode_of : A -> result bytearray.

#[export] Instance Command_Encodable : Encodable Command := encode.

(** A subclass of [Command] outside the seven, given by the buffer its
    [encode()] returns. *)
Inductive RawCommand : Type := Raw (buf : bytearray).

#[export] Instance RawCommand_Encodable : Encodable RawCommand :=
  fun c => match c with Raw buf => Ok buf end.

(** [DurinActuator.__call__(action, timeout)]. The reply is [Some []] for
    the empty list [reply] and [None] for Python's [None]. *)
Definition DurinActuator_call {A T : Type} `{Encodable A} (action : A)
    (timeout : T) : IO link_world (option (list bytearray)) :=
  do* command_bytes := lift (encode_of action) in
  let reply := [] in
  do* byte0 := lift (getitem command_bytes 0) in
  if byte0 =? 0 then ret (Some reply)
  else
    try_except (TCPLink_send command_bytes timeout ;; ret tt)
      is_QueueFull
      (fun _ => ret tt) ;;
    ret None.

End Actuator.


(** ** src/durin/controller/server.py: the DVS control plane *)

Module Server.
Import Py.
Local Open Scope py_scope.

(** The [Streamer] interface: two operations on some world [W]. *)
Class Streamer (W : Type) : Type := {
  start_stream : string -> Z -> IO W NoneType;
  stop_stream : IO W NoneType
}.

(** *** [AEStreamer]

    [aestream] and [aestream_log] are [None] or a handle of the child
    process. The outcome of every external call (process control,
    [subprocess.run], the camera lookup) comes from a script, as for the
    DVS client; [camera] is what [dvs.identify_inivation_camera()] answers
    when it succeeds. *)
Inductive proc_event : Type :=
| EvTerminate (h : nat)
| EvWait (h : nat) (timeout : option Z)
| EvKill (h : nat)
| EvJoin (h : nat)
| EvRun (cmd : list string)
| EvPopen (h : nat) (cmd : list string)
| EvProcessStart (h : nat)
| EvIdentifyCamera
| EvWarning (msg : string).

Record AEStreamer : Type := mkAEStreamer {
  aestream : option nat;
  aestream_log : option nat;
  camera_string : option string
}.

Record ae_world : Type := mkAEWorld {
  streamer : AEStreamer;
  camera : string;
  next_handle : nat;
  ae_script : list (option exn);
  ae_trace : list proc_event
}.

Definition set_streamer (f : AEStreamer -> AEStreamer) : IO ae_world unit :=
  modify (fun w =>
    mkAEWorld (f (streamer w)) (camera w) (next_handle w) (ae_script w)
              (ae_trace w)).

(** An external call: it is recorded, then its outcome is taken from the
    script. *)
Definition call (e : proc_event) : IO ae_world unit :=
  fun w =>
    let tr := ae_trace w ++ [e] in
    match ae_script w with
    | [] => (Ok tt, mkAEWorld (streamer w) (camera w) (next_handle w) [] tr)
    | o :: rest =>
        (match o with None => Ok tt | Some x => Raise x end,
         mkAEWorld (streamer w) (camera w) (next_handle w) rest tr)
    end.

Definition fresh_handle : IO ae_world nat :=
  fun w =>
    (Ok (next_handle w),
     mkAEWorld (streamer w) (camera w) (S (next_handle w)) (ae_script w)
               (ae_trace w)).

(** [logging.warning(...)]: recorded, never raises. *)
Definition warning (msg : string) : IO ae_world unit :=
  modify (fun w =>
    mkAEWorld (streamer w) (camera w) (next_handle w) (ae_script w)
              (ae_trace w ++ [EvWarning msg])).

(** [except Exception] catches every exception of this model. *)
Definition any_Exception (e : exn) : bool := true.

Definition AEStreamer_stop_stream : IO ae_world NoneType :=
  try_except
    (do* w := get in
     match aestream (streamer w) with
     | Some h =>
         call (EvTerminate h) ;;
         call (EvWait h (Some 1%Z)) ;;
         call (EvKill h) ;;
         call (EvWait h None)
     | None => ret tt
     end ;;
     do* w := get in
     match aestream_log (streamer w) with
     | Some h =>
         call (EvTerminate h) ;;
         call (EvJoin h)
     | None => ret tt
     end ;;
     call (EvRun ["pkill"; "aestream"]%string) ;;
     set_streamer (fun s => mkAEStreamer None (aestream_log s) (camera_string s)) ;;
     set_streamer (fun s => mkAEStreamer (aestream s) None (camera_string s)) ;;
     ret PyNone)
    any_Exception
    (fun _ => warning "Error when closing aestream" ;; ret PyNone).

Definition AEStreamer_start_stream (host : string) (port : Z)
    : IO ae_world NoneType :=
  do* w := get in
  match aestream (streamer w) with
  | Some _ => AEStreamer_stop_stream
  | None => ret PyNone
  end ;;
  do* found :=
    try_except
      (call EvIdentifyCamera ;;
       do* w := get in
       set_streamer (fun s =>
         mkAEStreamer (aestream s) (aestream_log s) (Some (camera w))) ;;
       ret true)
      any_Exception
      (fun _ => warning "No camera found" ;; ret false) in
  if found : bool then
    do* w := get in
    let cam := match camera_string (streamer w) with
               | Some c => c
               | None => EmptyString
               end in
    let command :=
      ("aestream input " ++ cam ++ " output udp " ++ host ++ " "
         ++ str_of_Z port)%string in
    do* h := fresh_handle in
    call (EvPopen h (split " "%char command)) ;;
    set_streamer (fun s =>
      mkAEStreamer (Some h) (aestream_log s) (camera_string s)) ;;
    do* l := fresh_handle in
    set_streamer (fun s =>
      mkAEStreamer (aestream s) (Some l) (camera_string s)) ;;
    call (EvProcessStart l) ;;
    ret PyNone
  else ret PyNone.


(** A streamer that does nothing but record the calls made on it. *)
Inductive streamer_call : Type :=
| CallStart (host : string) (port : Z)
| CallStop.

#[export] Instance Recorder : Streamer (list streamer_call) := {
  start_stream host port := fun calls => (Ok PyNone, calls ++ [CallStart host port]);
  stop_stream := fun calls => (Ok PyNone, calls ++ [CallStop])
}.

(** *** [DVSServer._parse_command] *)

(** A received message is a [bytes] object: every element is a byte. *)
Definition Z_of_byte (b : Byte.byte) : Z := Z.of_N (Byte.to_N b).

(** [str(ipaddress.ip_address(n))] for [0 <= n < 2^32], where the address
    is an [IPv4Address]: the four octets of [n], most significant first,
    in decimal and joined by dots. (A four-byte read is always in this
    range, see [from_bytes_slice_bound].) *)
Definition str_of_ip_address (n : Z) : string :=
  (str_of_Z (Z.land (Z.shiftr n 24) 255) ++ "." ++
   str_of_Z (Z.land (Z.shiftr n 16) 255) ++ "." ++
   str_of_Z (Z.land (Z.shiftr n 8) 255) ++ "." ++
   str_of_Z (Z.land n 255))%string.

Definition _parse_command {W : Type} `{Streamer W} (data : list Byte.byte)
    : IO W NoneType :=
  if (length data =? 0)%nat then ret PyNone
  else
    do* byte0 := lift (getitem data 0) in
    if (Z_of_byte byte0 =? 0)%Z then
      let host_ip := from_bytes (map Z_of_byte (slice data 1 5)) in
      let port := from_bytes (map Z_of_byte (slice data 5 7)) in
      start_stream (str_of_ip_address host_ip) port
    else
      stop_stream.

(** *** [DVSServer.client_loop]

    The loop leaves [while True] only through an exception. [msgs] are the
    messages [connection.recv(512)] returns, in order, and [e] is what the
    call after the last of them raises. *)
Fixpoint client_loop_body {W : Type} `{Streamer W}
    (msgs : list (list Byte.byte)) (e : exn) : IO W NoneType :=
  match msgs with
  | [] => raise e
  | msg :: rest => _parse_command msg ;; client_loop_body rest e
  end.

Definition client_loop {W : Type} `{Streamer W}
    (msgs : list (list Byte.byte)) (e : exn) : IO W NoneType :=
  try_except (client_loop_body msgs e)
    any_Exception
    (fun _ => stop_stream ;; ret PyNone).

End Server.

(** ** src/durin/sensor.py: the telemetry aggregator *)

Module Sensor.
Import Py.
Local Open Scope py_scope.

(** Floating-point values are kept abstract: [num] with the operations the
    aggregator applies to them. [c_float] is the narrowing a store into a
    single-precision ("f") cell performs; double-precision ("d") cells keep
    the value. [feps] is the literal [1e-7], [fmean] is numpy's [mean]. *)
Class Float (num : Type) : Type := {
  fzero : num;
  fone : num;
  feps : num;
  fadd : num -> num -> num;
  fsub : num -> num -> num;
  fdiv : num -> num -> num;
  fmean : list num -> num;
  c_float : num -> num
}.

(** Modelled from the spec: the table [SENSORS] of [durin.io] (not under
    src/), of which [consume] reads the entries [tof_a], [tof_d] and
    [misc]. *)
Record SENSORS : Type := mkSENSORS {
  tof_a : Z;
  tof_b : Z;
  tof_c : Z;
  tof_d : Z;
  misc : Z;
  uwb_id : Z
}.

(** Modelled from the spec: what [durin.io.decode] (not under src/) hands
    over as [data]. A depth packet is an array, given here by its elements
    in row-major order ([data.reshape(-1)]); a [misc] packet is the list
    [[charge, voltage, imu]] with [imu] an array, given the same way. *)
Inductive payload (num : Type) : Type :=
| ArrayData (flat : list num)
| MiscData (charge voltage : num) (imu : list num).
Arguments ArrayData {num} flat.
Arguments MiscData {num} charge voltage imu.

(** Modelled from the spec: [RingBuffer] of [durin.io.ringbuffer] (not
    under src/), a fixed-capacity circular buffer: [append] writes at
    [counter] and advances it, wrapping at the capacity, so that a full
    buffer loses its oldest entry. *)
Record RingBuffer (num : Type) : Type := mkRingBuffer {
  buffer : list num;
  counter : nat
}.
Arguments mkRingBuffer {num}.
Arguments buffer {num}.
Arguments counter {num}.

Definition RingBuffer_new {num : Type} (b : list num) : RingBuffer num :=
  mkRingBuffer b 0.

Definition RingBuffer_append {num : Type} (rb : RingBuffer num) (x : num)
    : result (RingBuffer num) :=
  if (counter rb <? length (buffer rb))%nat then
    Ok (mkRingBuffer (<[counter rb := x]> (buffer rb))
                     (S (counter rb) mod length (buffer rb)))
  else Raise IndexError.

(** [arr[a:b] = vals] on a shared [Array] (a ctypes array), for
    [0 <= a]: the bounds are clamped to the length, and the values must be
    exactly as many as the slice has cells. *)
Definition array_setslice {A : Type} (arr : list A) (a b : nat)
    (vals : list A) : result (list A) :=
  let a' := Nat.min a (length arr) in
  let b' := Nat.max a' (Nat.min b (length arr)) in
  if (length vals =? b' - a')%nat then
    Ok (take a' arr ++ vals ++ drop b' arr)
  else Raise ValueError.

Section Aggregator.
Context {num : Type} `{Float num}.
Variable sensors : SENSORS.

(** The shared memory allocated by [DurinSensor.__init__]. *)
Record shared : Type := mkShared {
  tof : list num;
  charge : num;
  voltage : num;
  imu : list num;
  uwb : num;
  ringbuffer : list num;
  ringbuffer_idx : nat;
  timestamp_update : num
}.

(** [__init__] at time [now]. *)
Definition DurinSensor_new (now : num) : shared :=
  mkShared (repeat fzero (8 * 8 * 8)) fzero fzero (repeat fzero (3 * 3)) fzero
           (repeat fzero 50) 0 now.

Record Observation : Type := mkObservation {
  obs_tof : list num;
  obs_charge : num;
  obs_voltage : num;
  obs_imu : list num;
  obs_uwb : num;
  obs_frequency : num
}.

Definition read (w : shared) : Observation :=
  let tof := tof w in
  let imu := imu w in
  let frequency := fdiv fone (fadd (fmean (ringbuffer w)) feps) in
  mkObservation tof (charge w) (voltage w) imu (uwb w) frequency.

Definition set_tof (v : list num) : IO shared unit :=
  modify (fun w => mkShared v (charge w) (voltage w) (imu w) (uwb w)
                            (ringbuffer w) (ringbuffer_idx w) (timestamp_update w)).
Definition set_charge (v : num) : IO shared unit :=
  modify (fun w => mkShared (tof w) v (voltage w) (imu w) (uwb w)
                            (ringbuffer w) (ringbuffer_idx w) (timestamp_update w)).
Definition set_voltage (v : num) : IO shared unit :=
  modify (fun w => mkShared (tof w) (charge w) v (imu w) (uwb w)
                            (ringbuffer w) (ringbuffer_idx w) (timestamp_update w)).
Definition set_imu (v : list num) : IO shared unit :=
  modify (fun w => mkShared (tof w) (charge w) (voltage w) v (uwb w)
                            (ringbuffer w) (ringbuffer_idx w) (timestamp_update w)).
Definition set_ringbuffer (v : list num) : IO shared unit :=
  modify (fun w => mkShared (tof w) (charge w) (voltage w) (imu w) (uwb w)
                            v (ringbuffer_idx w) (timestamp_update w)).
Definition set_ringbuffer_idx (v : nat) : IO shared unit :=
  modify (fun w => mkShared (tof w) (charge w) (voltage w) (imu w) (uwb w)
                            (ringbuffer w) v (timestamp_update w)).
Definition set_timestamp_update (v : num) : IO shared unit :=
  modify (fun w => mkShared (tof w) (charge w) (voltage w) (imu w) (uwb w)
                            (ringbuffer w) (ringbuffer_idx w) v).

(** [data.reshape(-1)]: a list has no such method. *)
Definition reshape_flat (data : payload num) : result (list num) :=
  match data with
  | ArrayData flat => Ok flat
  | MiscData _ _ _ => Raise AttributeError
  end.

(** [data[0]], [data[1]] and [data[2].reshape(-1)] of a [misc] packet; a
    row of an array is not a scalar a [Value] cell accepts. *)
Definition misc_fields (data : payload num) : result (num * num * list num) :=
  match data with
  | MiscData c v i => Ok (c, v, i)
  | ArrayData _ => Raise TypeError
  end.

(** [consume(item, ...)], with [time_now] the reading of [time.time()]. *)
Definition consume (item : Z * payload num) (time_now : num)
    : IO shared NoneType :=
  let '(sensor_id, data) := item in
  (if (tof_a sensors <=? sensor_id)%Z && (sensor_id <=? tof_d sensors)%Z then
     let idx := Z.to_nat ((sensor_id - tof_a sensors) * 2) in
     do* flat := lift (reshape_flat data) in
     do* w := get in
     do* tof' := lift (array_setslice (tof w) (idx * 64) ((idx + 2) * 64)
                                      (map c_float flat)) in
     set_tof tof'
   else ret tt) ;;
  (if (sensor_id =? misc sensors)%Z then
     do* f := lift (misc_fields data) in
     let '(c, v, i) := f in
     set_charge (c_float c) ;;
     set_voltage (c_float v) ;;
     do* w := get in
     do* imu' := lift (array_setslice (imu w) 0 (length (imu w)) i) in
     set_imu imu'
   else ret tt) ;;
  do* w := get in
  let buffer := RingBuffer_new (ringbuffer w) in
  let buffer := mkRingBuffer (Sensor.buffer buffer) (ringbuffer_idx w) in
  do* buffer := lift (RingBuffer_append buffer
                        (fsub time_now (timestamp_update w))) in
  do* rb' := lift (array_setslice (ringbuffer w) 0 (length (ringbuffer w))
                                  (Sensor.buffer buffer)) in
  set_ringbuffer rb' ;;
  set_ringbuffer_idx (counter buffer) ;;
  set_timestamp_update time_now ;;
  ret PyNone.

(** Layer [k] of the depth volume: the 64 cells from [k * 64]. *)
Definition layer (t : list num) (k : nat) : list num :=
  slice t (k * 64) ((k + 1) * 64).

End Aggregator.

Arguments shared num : clear implicits.
Arguments Observation num : clear implicits.

End Sensor.

(** ** The wire formats, as the specification words them *)

Module Wire.
Local Open Scope Z_scope.

Definition is_int16 (v : Z) : Prop := -32768 <= v <= 32767.
Definition is_uint16 (v : Z) : Prop := 0 <= v < 65536.
Definition is_octet (v : Z) : Prop := 0 <= v < 256.

(** "int16": two's complement on 16 bits, low byte first. *)
Definition int16_le (v : Z) : list Z :=
  let u := v mod 65536 in [u mod 256; u / 256].

(** "uint16": low byte first. *)
Definition uint16_le (v : Z) : list Z := [v mod 256; v / 256].

(** An IPv4 address in dotted-decimal notation. *)
Definition dotted_quad (a b c d : Z) : string :=
  (Py.str_of_Z a ++ "." ++ Py.str_of_Z b ++ "." ++
   Py.str_of_Z c ++ "." ++ Py.str_of_Z d)%string.

(** [s] does not contain the character [sep]. *)
Fixpoint no_sep (sep : ascii) (s : string) : bool :=
  match s with
  | EmptyString => true
  | String c s' => negb (Ascii.eqb c sep) && no_sep sep s'
  end.

(** [str] of the octet [n] has no dot, and [int] reads it back. *)
Definition octet_str_ok (n : nat) : bool :=
  no_sep "."%char (Py.str_of_Z (Z.of_nat n))
  && match Py.int_of_str (Py.str_of_Z (Z.of_nat n)) with
     | Ok m => m =? Z.of_nat n
     | Raise _ => false
     end.

(** The size of each variant's encoding. *)
Definition wire_length (c : Actuator.Command) : nat :=
  match c with
  | Actuator.PowerOff => 1
  | Actuator.Move _ _ _ => 7
  | Actuator.MoveWheels _ _ _ _ => 9
  | Actuator.PollAll => 1
  | Actuator.PollSensor _ => 2
  | Actuator.StreamOn _ _ _ => 9
  | Actuator.StreamOff => 1
  end%nat.

(** Two commands the wire cannot tell apart: the same command, or two
    [StreamOn] with the same port and period (their hosts may be spelled
    differently). *)
Definition same_on_wire (c1 c2 : Actuator.Command) : Prop :=
  match c1, c2 with
  | Actuator.StreamOn _ port1 period1, Actuator.StreamOn _ port2 period2 =>
      port1 = port2 /\ period1 = period2
  | _, _ => c1 = c2
  end.

(** The integer of the IPv4 address [a.b.c.d]. *)
Definition ipv4_int (a b c d : Z) : Z :=
  a * 2 ^ 24 + b * 2 ^ 16 + c * 2 ^ 8 + d.

End Wire.

(** ** Vocabulary for the links and the streamers *)

Module LinkSpec.
Import Py Network Server.

(** The world after one non-blocking [put] of [command] that left the
    outbound queue as [q]. *)
Definition after_put (w : link_world) (command : bytearray)
    (q : Queue bytearray) : link_world :=
  mkLinkWorld (mkTCPLink q (buffer_receive (link w)) (sock_closed (link w)))
              (link_trace w ++ [EvPut command false])
              (link_waited w || false).

(** A streamer that holds no child process. *)
Definition ae_stopped (s : AEStreamer) : Prop :=
  aestream s = None /\ aestream_log s = None.

(** Sending a list of commands, one [send] after the other. *)
Fixpoint send_all {T : Type} (commands : list bytearray) (timeout : T)
    : IO link_world NoneType :=
  match commands with
  | [] => ret PyNone
  | c :: rest => TCPLink_send c timeout ;; send_all rest timeout
  end%py.


(** The external calls of a [stop_stream] on the streamer [s] in which
    nothing fails. *)
Definition stop_events (s : AEStreamer) : list proc_event :=
  match aestream s with
  | Some h => [EvTerminate h; EvWait h (Some 1%Z); EvKill h; EvWait h None]
  | None => []
  end ++
  match aestream_log s with
  | Some l => [EvTerminate l; EvJoin l]
  | None => []
  end ++
  [EvRun ["pkill"; "aestream"]%string].

(** The command line of [start_stream], split into words. *)
Definition argv (w : ae_world) (host : string) (port : Z) : list string :=
  split " "%char
    ("aestream input " ++ camera w ++ " output udp " ++ host ++ " "
       ++ str_of_Z port)%string.

(** The streamer call a control message stands for: none for an empty
    message. *)
Definition dispatch (msg : list Byte.byte) : list streamer_call :=
  match msg with
  | [] => []
  | byte0 :: _ =>
      if (Z_of_byte byte0 =? 0)%Z then
        [CallStart
           (str_of_ip_address (from_bytes (map Z_of_byte (slice msg 1 5))))
           (from_bytes (map Z_of_byte (slice msg 5 7)))]
      else [CallStop]
  end.

End LinkSpec.

(** ** Vocabulary for the aggregator's properties *)

Module SensorSpec.
Import Py Sensor.
Local Open Scope py_scope.

(** The depth sensors have four consecutive ids, and [misc] is none of
    them. *)
Definition sensors_wf (t : SENSORS) : Prop :=
  (tof_b t = tof_a t + 1 /\ tof_c t = tof_a t + 2 /\ tof_d t = tof_a t + 3
   /\ (misc t < tof_a t \/ tof_d t < misc t))%Z.

Definition is_tof (t : SENSORS) (s : Z) : Prop :=
  (tof_a t <= s <= tof_d t)%Z.

Section Vocabulary.
Context {num : Type} `{Float num}.

(** The sizes [DurinSensor.__init__] allocates, and an index inside the
    ring buffer. *)
Definition shared_wf (w : shared num) : Prop :=
  length (tof w) = 512 /\ length (imu w) = 9 /\ length (ringbuffer w) = 50
  /\ ringbuffer_idx w < 50.

(** A depth packet carries 2x8x8 values, a [misc] packet a 3x3 [imu]. *)
Definition well_shaped (t : SENSORS) (item : Z * payload num) : Prop :=
  (is_tof t (fst item) ->
     exists flat, snd item = ArrayData flat /\ length flat = 128)
  /\ (fst item = misc t ->
     exists c v i, snd item = MiscData c v i /\ length i = 9).

(** The three effects of [consume] on the shared state. *)
Definition store_tof (idx : nat) (flat : list num) (w : shared num)
    : shared num :=
  mkShared
    (take (idx * 64) (tof w) ++ map c_float flat ++ drop ((idx + 2) * 64) (tof w))
    (charge w) (voltage w) (imu w) (uwb w)
    (ringbuffer w) (ringbuffer_idx w) (timestamp_update w).

Definition store_misc (c v : num) (i : list num) (w : shared num)
    : shared num :=
  mkShared (tof w) (c_float c) (c_float v) i (uwb w)
    (ringbuffer w) (ringbuffer_idx w) (timestamp_update w).

Definition push_delta (now : num) (w : shared num) : shared num :=
  mkShared (tof w) (charge w) (voltage w) (imu w) (uwb w)
    (<[ringbuffer_idx w := fsub now (timestamp_update w)]> (ringbuffer w))
    (S (ringbuffer_idx w) mod length (ringbuffer w))
    now.

(** The last block of [consume] ("Update Hz"), on its own. *)
Definition update_hz (time_now : num) : IO (shared num) NoneType :=
  do* w := get in
  let buffer := RingBuffer_new (ringbuffer w) in
  let buffer := mkRingBuffer (Sensor.buffer buffer) (ringbuffer_idx w) in
  do* buffer := lift (RingBuffer_append buffer
                        (fsub time_now (timestamp_update w))) in
  do* rb' := lift (array_setslice (ringbuffer w) 0 (length (ringbuffer w))
                                  (Sensor.buffer buffer)) in
  set_ringbuffer rb' ;;
  set_ringbuffer_idx (counter buffer) ;;
  set_timestamp_update time_now ;;
  ret PyNone.

(** The inter-update deltas of a run: every reading of the clock minus
    the one before it, starting from [last]. *)
Fixpoint deltas (last : num) (times : list num) : list num :=
  match times with
  | [] => []
  | t :: ts => fsub t last :: deltas t ts
  end.

(** Consuming the items of a run in order, each at its own reading of the
    clock. *)
Fixpoint consume_all (t : SENSORS) (run : list ((Z * payload num) * num))
    : IO (shared num) NoneType :=
  match run with
  | [] => ret PyNone
  | (item, now) :: rest => consume t item now ;; consume_all t rest
  end.

End Vocabulary.

(** Pushing a list of values, oldest first. *)
Fixpoint push_all {num : Type} (rb : RingBuffer num) (xs : list num)
    : result (RingBuffer num) :=
  match xs with
  | [] => Ok rb
  | x :: xs' => let* rb' := RingBuffer_append rb x in push_all rb' xs'
  end.

End SensorSpec.

(** ** Instances used to run the model on examples *)

Module Examples.
Import QArith.

(** Exact rational arithmetic, without rounding. *)
#[export] Instance Float_Q : Sensor.Float Q := {|
  Sensor.fzero := 0%Q;
  Sensor.fone := 1%Q;
  Sensor.feps := (1 # 10000000)%Q;
  Sensor.fadd := Qplus;
  Sensor.fsub := Qminus;
  Sensor.fdiv := Qdiv;
  Sensor.fmean := fun l =>
    Qdiv (fold_right Qplus 0%Q l) (inject_Z (Z.of_nat (length l)));
  Sensor.c_float := fun x => x
|}.

(** A table with four consecutive depth sensors followed by [misc]. *)
Definition sensors : Sensor.SENSORS := Sensor.mkSENSORS 128 129 130 131 132 133.

(** A freshly connected link with the default queue sizes, and the same
    link after [stop()]. *)
Definition link0 : Network.link_world :=
  Network.mkLinkWorld (Network.TCPLink_new 2 100) [] false.

Definition link_stopped : Network.link_world :=
  Network.mkLinkWorld (Network.TCPLink_stop (Network.TCPLink_new 2 100)) [] false.

(** The default [timeout] of [DurinActuator.__call__], 0.05. *)
Definition timeout : Q := (1 # 20)%Q.

(** A streamer before any stream, and one with a running [aestream]. *)
Definition ae_idle : Server.ae_world :=
  Server.mkAEWorld (Server.mkAEStreamer None None None) "dvx" 0 [] [].

Definition ae_running : Server.ae_world :=
  Server.mkAEWorld (Server.mkAEStreamer (Some 0%nat) (Some 1%nat) (Some "dvx"%string))
                   "dvx" 2 [] [].

(** A client before its first message, and a connected one. *)
Definition client_idle : Network.client_world :=
  Network.mkClientWorld (Network.DVSClient_new "10.0.0.2" 2301) 0 [] [].

Definition client_connected : Network.client_world :=
  Network.mkClientWorld (Network.mkDVSClient (Some 0%nat) ("10.0.0.2"%string, 2301%Z))
                        1 [] [].

(** Fifty packets of an unknown sensor, one second apart. *)
Definition steady_run : list ((Z * Sensor.payload Q) * Q) :=
  map (fun k => ((7%Z, Sensor.ArrayData []), inject_Z (Z.of_nat k)))
      (seq 1 50).

End Examples.

(** The first two blocks of [consume], each on its own. *)
Module SensorBlocks.
Import Py Sensor.
Local Open Scope py_scope.

Section Blocks.
Context {num : Type} `{Float num}.
Variable sensors : SENSORS.

Definition tof_block (sensor_id : Z) (data : payload num)
    : IO (shared num) unit :=
  if (tof_a sensors <=? sensor_id)%Z && (sensor_id <=? tof_d sensors)%Z then
    let idx := Z.to_nat ((sensor_id - tof_a sensors) * 2) in
    do* flat := lift (reshape_flat data) in
    do* w := get in
    do* tof' := lift (array_setslice (tof w) (idx * 64) ((idx + 2) * 64)
                                     (map c_float flat)) in
    set_tof tof'
  else ret tt.

Definition misc_block (sensor_id : Z) (data : payload num)
    : IO (shared num) unit :=
  if (sensor_id =? misc sensors)%Z then
    do* f := lift (misc_fields data) in
    let '(c, v, i) := f in
    set_charge (c_float c) ;;
    set_voltage (c_float v) ;;
    do* w := get in
    do* imu' := lift (array_setslice (imu w) 0 (length (imu w)) i) in
    set_imu imu'
  else ret tt.

End Blocks.

End SensorBlocks.

(** A parser of dotted-decimal IPv4 addresses, standing in for
    [int(ipaddress.ip_address(host))] where the model is run: four fields
    of one to three decimal digits, without a leading zero, each at most
    255. *)
Module ClientExamples.
Local Open Scope Z_scope.

Definition octet_of_field (s : string) : option Z :=
  let cs := list_ascii_of_string s in
  let all_digits :=
    forallb (fun c => match Py.digit_of c with Some _ => true | None => false end)
            cs in
  let no_leading_zero :=
    match cs with
    | c :: _ :: _ => negb (Ascii.eqb c "0"%char)
    | _ => true
    end in
  if all_digits && (1 <=? length cs)%nat && (length cs <=? 3)%nat
     && no_leading_zero
  then match Py.digits 0 false cs with
       | Some v => if v <=? 255 then Some v else None
       | None => None
       end
  else None.

Definition ip_address_int (host : string) : result Z :=
  match map octet_of_field (Py.split "."%char host) with
  | [Some a; Some b; Some c; Some d] => Ok (Wire.ipv4_int a b c d)
  | _ => Raise ValueError
  end.

End ClientExamples.

(* ===================================================================== *)
(** * Part II: properties                                                 *)
(* ===================================================================== *)

(** ** Bytes and integers *)

Module BytesFacts.
Import Py Wire.
Local Open Scope Z_scope.

Lemma land_255 (x : Z) : Z.land x 255 = x mod 256.
Proof. change 255 with (Z.ones 8). rewrite Z.land_ones by lia. reflexivity. Qed.

Lemma shiftr_8 (x : Z) : Z.shiftr x 8 = x / 256.
Proof. rewrite Z.shiftr_div_pow2 by lia. reflexivity. Qed.

Lemma le_bytes_2 (x : Z) : le_bytes 2 x = [x mod 256; (x / 256) mod 256].
Proof. simpl. rewrite !land_255, shiftr_8. reflexivity. Qed.

Lemma mod_65536_split (v : Z) :
  v mod 65536 = v mod 256 + 256 * ((v / 256) mod 256).
Proof. change 65536 with (256 * 256). apply Z.rem_mul_r; lia. Qed.

Lemma int16_le_bytes (v : Z) : int16_le v = le_bytes 2 v.
Proof.
  rewrite le_bytes_2. unfold int16_le. rewrite mod_65536_split.
  pose proof (Z.mod_pos_bound v 256 ltac:(lia)) as Hlo.
  pose proof (Z.mod_pos_bound (v / 256) 256 ltac:(lia)) as Hhi.
  f_equal; [| f_equal].
  - symmetry. apply (Z.mod_unique _ _ ((v / 256) mod 256)); lia.
  - symmetry. apply (Z.div_unique _ _ _ (v mod 256)); lia.
Qed.

Lemma uint16_le_bytes (v : Z) : is_uint16 v -> uint16_le v = le_bytes 2 v.
Proof.
  intros [Hlo Hhi]. rewrite le_bytes_2. unfold uint16_le.
  f_equal. f_equal. symmetry. apply Z.mod_small.
  split; [apply Z.div_pos; lia | apply Z.div_lt_upper_bound; lia].
Qed.

Lemma pack_h_int16 (v : Z) : is_int16 v -> pack_h v = Ok (int16_le v).
Proof.
  intros [Hlo Hhi]. unfold pack_h.
  destruct (Z.leb_spec (-32768) v); [| lia].
  destruct (Z.leb_spec v 32767); [| lia].
  simpl andb. cbv iota. rewrite int16_le_bytes. reflexivity.
Qed.

Lemma pack_h_out_of_range (v : Z) : ~ is_int16 v -> pack_h v = Raise StructError.
Proof.
  intros Hn. unfold pack_h.
  destruct (Z.leb_spec (-32768) v); destruct (Z.leb_spec v 32767);
    simpl; try reflexivity.
  exfalso. apply Hn. split; assumption.
Qed.

Lemma to_bytes_uint16 (v : Z) : is_uint16 v -> to_bytes v 2 = Ok (uint16_le v).
Proof.
  intros Hv. pose proof Hv as [Hlo Hhi]. unfold to_bytes.
  destruct (Z.leb_spec 0 v); [| lia].
  change (256 ^ Z.of_nat 2) with 65536.
  destruct (Z.ltb_spec v 65536); [| lia].
  simpl andb. cbv iota. rewrite uint16_le_bytes by assumption. reflexivity.
Qed.

Lemma setitem_octet (data : bytearray) (i : nat) (v : Z) :
  (i < length data)%nat -> is_octet v -> setitem data i v = Ok (<[i := v]> data).
Proof.
  intros Hi [Hlo Hhi]. unfold setitem.
  destruct (Nat.ltb_spec i (length data)); [| lia].
  destruct (Z.leb_spec 0 v); [| lia].
  destruct (Z.ltb_spec v 256); [| lia].
  reflexivity.
Qed.

(** *** Dotted-decimal strings *)

Lemma split_nonempty (sep : ascii) (s : string) : split sep s <> [].
Proof.
  destruct s as [| c s']; simpl; [discriminate |].
  destruct (Ascii.eqb c sep); [discriminate |].
  destruct (split sep s'); discriminate.
Qed.

Lemma split_last (sep : ascii) (s : string) :
  no_sep sep s = true -> split sep s = [s].
Proof.
  induction s as [| c s' IH]; simpl; intros Hs; [reflexivity |].
  apply andb_prop in Hs as [Hc Hs'].
  apply negb_true_iff in Hc. rewrite Hc, (IH Hs'). reflexivity.
Qed.

Lemma split_app (sep : ascii) (s t : string) :
  no_sep sep s = true ->
  split sep (s ++ String sep t) = s :: split sep t.
Proof.
  induction s as [| c s' IH]; simpl; intros Hs.
  - rewrite Ascii.eqb_refl. reflexivity.
  - apply andb_prop in Hs as [Hc Hs'].
    apply negb_true_iff in Hc. rewrite Hc, (IH Hs'). reflexivity.
Qed.

Lemma octet_table : forallb octet_str_ok (seq 0 256) = true.
Proof. vm_compute. reflexivity. Qed.

Lemma octet_str (a : Z) :
  is_octet a ->
  no_sep "."%char (str_of_Z a) = true /\ int_of_str (str_of_Z a) = Ok a.
Proof.
  intros [Hlo Hhi].
  pose proof octet_table as Ht. rewrite forallb_forall in Ht.
  specialize (Ht (Z.to_nat a)).
  assert (Hin : In (Z.to_nat a) (seq 0 256)) by (apply in_seq; lia).
  specialize (Ht Hin). unfold octet_str_ok in Ht.
  rewrite Z2Nat.id in Ht by lia.
  apply andb_prop in Ht as [Hdot Hint]. split; [exact Hdot |].
  destruct (int_of_str (str_of_Z a)) as [m |]; [| discriminate].
  apply Z.eqb_eq in Hint. subst m. reflexivity.
Qed.

Lemma split_dotted_quad (a b c d : Z) :
  is_octet a -> is_octet b -> is_octet c -> is_octet d ->
  split "."%char (dotted_quad a b c d) =
    [str_of_Z a; str_of_Z b; str_of_Z c; str_of_Z d].
Proof.
  intros Ha Hb Hc Hd. unfold dotted_quad.
  cbn [String.append].
  rewrite split_app by apply (octet_str a Ha).
  rewrite split_app by apply (octet_str b Hb).
  rewrite split_app by apply (octet_str c Hc).
  rewrite split_last by apply (octet_str d Hd).
  reflexivity.
Qed.

End BytesFacts.

(** ** The TCP link *)

Module NetworkFacts.
Import Py Network LinkSpec.

(** What [send] does, by the state of the outbound queue. *)
Lemma TCPLink_send_cases {T : Type} (command : bytearray) (timeout : T)
    (w : link_world) :
  TCPLink_send command timeout w =
    let q := buffer_send (link w) in
    if closed q then (Raise ValueError, after_put w command q)
    else if Queue_full q then (Ok PyNone, after_put w command q)
    else (Ok PyNone,
          after_put w command (mkQueue (maxsize q) (items q ++ [command]) false)).
Proof.
  unfold TCPLink_send, try_except, iobind, buffer_send_put, Queue_put, ret,
    after_put.
  destruct (closed (buffer_send (link w))); simpl; [reflexivity |].
  destruct (Queue_full (buffer_send (link w))); simpl; reflexivity.
Qed.

(** C6, as amended. [TCPLink.send(command, timeout)] makes one
    non-blocking [put] and never waits; on every outbound queue that has
    not been closed it does not raise: on a full queue the command is
    dropped (the queue is unchanged) and [send] returns [None]; otherwise
    the command is appended and [send] returns [None]. *)
Theorem TCPLink_send_open_queue :
  forall (T : Type) (command : bytearray) (timeout : T) (w : link_world),
    link_waited (snd (TCPLink_send command timeout w)) = link_waited w
    /\ link_trace (snd (TCPLink_send command timeout w)) =
         link_trace w ++ [EvPut command false]
    /\ (closed (buffer_send (link w)) = false ->
        exists w' : link_world,
          TCPLink_send command timeout w = (Ok PyNone, w')
          /\ buffer_receive (link w') = buffer_receive (link w)
          /\ (Queue_full (buffer_send (link w)) = true ->
              buffer_send (link w') = buffer_send (link w))
          /\ (Queue_full (buffer_send (link w)) = false ->
              buffer_send (link w') =
                mkQueue (maxsize (buffer_send (link w)))
                        (items (buffer_send (link w)) ++ [command]) false)).
Proof.
  intros T command timeout w.
  rewrite TCPLink_send_cases. cbv zeta.
  destruct (closed (buffer_send (link w))) eqn:Hclosed.
  - cbn [snd after_put link_waited link_trace]. rewrite orb_false_r.
    repeat split. intros Hc. discriminate Hc.
  - destruct (Queue_full (buffer_send (link w))) eqn:Hfull;
      cbn [snd after_put link_waited link_trace]; rewrite orb_false_r;
      (split; [reflexivity |]); (split; [reflexivity |]);
      intros _; eexists; (split; [reflexivity |]); simpl;
      repeat split; try reflexivity; intros Hc; discriminate Hc.
Qed.

Lemma TCPLink_send_open_queue_witness :
  exists w' : link_world,
    TCPLink_send [1%Z] Examples.timeout Examples.link0 = (Ok PyNone, w')
    /\ buffer_send (link w') = mkQueue 2 [[1%Z]] false.
Proof.
  destruct (TCPLink_send_open_queue _ [1%Z] Examples.timeout Examples.link0)
    as (_ & _ & Hopen).
  destruct (Hopen eq_refl) as (w' & Hrun & _ & _ & Hput).
  exists w'. split; [exact Hrun | exact (Hput eq_refl)].
Defined.

(** C6, as stated, fails: after [stop()] has closed the outbound queue,
    [put] raises [ValueError], which [send] does not catch. *)
Lemma TCPLink_send_closed_queue_raises :
  fst (TCPLink_send [1%Z] Examples.timeout Examples.link_stopped)
    = Raise ValueError.
Proof. reflexivity. Qed.

End NetworkFacts.

(** ** The command codec *)

Module ActuatorFacts.
Import Py Network Actuator Wire BytesFacts.
Local Open Scope Z_scope.

Lemma Move_encode_layout (vx vy rot : Z) :
  is_int16 vx -> is_int16 vy -> is_int16 (- rot) ->
  encode (Move vx vy rot) =
    Ok ([2] ++ int16_le vx ++ int16_le vy ++ int16_le (- rot)).
Proof.
  intros Hx Hy Hr. simpl encode. unfold Move_encode.
  rewrite (pack_h_int16 vx Hx), (pack_h_int16 vy Hy), (pack_h_int16 _ Hr).
  reflexivity.
Qed.

Lemma MoveWheels_encode_layout (ne nw sw se : Z) :
  is_int16 (- se) -> is_int16 sw -> is_int16 (- ne) -> is_int16 nw ->
  encode (MoveWheels ne nw sw se) =
    Ok ([3] ++ int16_le (- se) ++ int16_le sw ++ int16_le (- ne) ++ int16_le nw).
Proof.
  intros H1 H2 H3 H4. simpl encode. unfold MoveWheels_encode.
  rewrite (pack_h_int16 _ H1), (pack_h_int16 _ H2), (pack_h_int16 _ H3),
    (pack_h_int16 _ H4).
  reflexivity.
Qed.

(** C1, as amended. For every [Move(vx, vy, rot)] whose [vx], [vy] and
    negated [rot] are int16-representable, [encode()] returns exactly the 7
    bytes [2, int16 LE vx, int16 LE vy, int16 LE -rot]; for every
    [MoveWheels(ne, nw, sw, se)] whose [-se], [sw], [-ne] and [nw] are
    int16-representable, [encode()] returns exactly the 9 bytes
    [3, int16 LE -se, int16 LE sw, int16 LE -ne, int16 LE nw]; and
    [Move(300, -150, 90).encode()] is [2, 0x2C, 0x01, 0x6A, 0xFF, 0xA6, 0xFF]. *)
Theorem Move_MoveWheels_encode :
  (forall vx vy rot : Z,
      is_int16 vx -> is_int16 vy -> is_int16 (- rot) ->
      encode (Move vx vy rot) =
        Ok ([2] ++ int16_le vx ++ int16_le vy ++ int16_le (- rot)))
  /\ (forall ne nw sw se : Z,
      is_int16 (- se) -> is_int16 sw -> is_int16 (- ne) -> is_int16 nw ->
      encode (MoveWheels ne nw sw se) =
        Ok ([3] ++ int16_le (- se) ++ int16_le sw ++ int16_le (- ne)
                ++ int16_le nw))
  /\ encode (Move 300 (-150) 90) = Ok [2; 0x2C; 0x01; 0x6A; 0xFF; 0xA6; 0xFF].
Proof.
  split; [exact Move_encode_layout |].
  split; [exact MoveWheels_encode_layout |].
  reflexivity.
Qed.

Lemma Move_MoveWheels_encode_witness :
  encode (Move 300 (-150) 90) = Ok [2; 44; 1; 106; 255; 166; 255]
  /\ encode (MoveWheels 1 2 3 4) = Ok [3; 252; 255; 3; 0; 255; 255; 2; 0].
Proof.
  split.
  - apply (proj1 Move_MoveWheels_encode 300 (-150) 90); unfold is_int16; lia.
  - apply (proj1 (proj2 Move_MoveWheels_encode) 1 2 3 4); unfold is_int16; lia.
Defined.

(** C1, as stated, fails: [rot = -32768] is int16-representable, its
    negation is not, and [struct.pack] refuses it; the same holds for the
    negated wheels [se] and [ne]. *)
Lemma Move_encode_rot_min_raises :
  is_int16 0 /\ is_int16 (-32768)
  /\ encode (Move 0 0 (-32768)) = Raise StructError
  /\ encode (MoveWheels 0 0 0 (-32768)) = Raise StructError
  /\ encode (MoveWheels (-32768) 0 0 0) = Raise StructError.
Proof.
  unfold is_int16. repeat split; try lia; reflexivity.
Qed.

Lemma StreamOn_encode_layout (a b c d port period : Z) :
  is_octet a -> is_octet b -> is_octet c -> is_octet d ->
  is_uint16 port -> is_uint16 period ->
  encode (StreamOn (dotted_quad a b c d) port period) =
    Ok ([18; a; b; c; d] ++ uint16_le port ++ uint16_le period).
Proof.
  intros Ha Hb Hc Hd Hport Hperiod. simpl encode. unfold StreamOn_encode.
  rewrite (split_dotted_quad a b c d Ha Hb Hc Hd).
  destruct (octet_str a Ha) as [_ Hia]. destruct (octet_str b Hb) as [_ Hib].
  destruct (octet_str c Hc) as [_ Hic]. destruct (octet_str d Hd) as [_ Hid].
  rewrite (to_bytes_uint16 port Hport), (to_bytes_uint16 period Hperiod).
  generalize dependent (str_of_Z a). generalize dependent (str_of_Z b).
  generalize dependent (str_of_Z c). generalize dependent (str_of_Z d).
  intros sd Hid sc Hic sb Hib sa Hia.
  unfold zeros. cbn [repeat cmd_id].
  rewrite setitem_octet by (simpl; unfold is_octet; lia).
  cbn [bind getitem lookup list_lookup].
  rewrite Hia. cbn [bind].
  rewrite setitem_octet by first [assumption | simpl; lia].
  cbn [bind getitem lookup list_lookup].
  rewrite Hib. cbn [bind].
  rewrite setitem_octet by first [assumption | simpl; lia].
  cbn [bind getitem lookup list_lookup].
  rewrite Hic. cbn [bind].
  rewrite setitem_octet by first [assumption | simpl; lia].
  cbn [bind getitem lookup list_lookup].
  rewrite Hid. cbn [bind].
  rewrite setitem_octet by first [assumption | simpl; lia].
  cbn [bind].
  reflexivity.
Qed.

(** C2, as amended. [StreamOn("192.168.1.10", 4300, 50).encode()] is
    [18, 192, 168, 1, 10, 0xCC, 0x10, 0x32, 0x00] (4300 is 0x10CC); in
    general, for a dotted-decimal IPv4 [host] and [port], [period] in the
    uint16 range, [StreamOn(host, port, period).encode()] returns 9 bytes:
    id 18, the 4 octets of [host] in order, uint16 little-endian [port],
    uint16 little-endian [period]. *)
Theorem StreamOn_encode_bytes :
  encode (StreamOn "192.168.1.10" 4300 50)
    = Ok [18; 192; 168; 1; 10; 0xCC; 0x10; 0x32; 0x00]
  /\ forall a b c d port period : Z,
      is_octet a -> is_octet b -> is_octet c -> is_octet d ->
      is_uint16 port -> is_uint16 period ->
      encode (StreamOn (dotted_quad a b c d) port period) =
        Ok ([18; a; b; c; d] ++ uint16_le port ++ uint16_le period).
Proof.
  split; [reflexivity | exact StreamOn_encode_layout].
Qed.

Lemma StreamOn_encode_bytes_witness :
  encode (StreamOn "10.0.0.7" 4301 100) = Ok [18; 10; 0; 0; 7; 205; 16; 100; 0].
Proof.
  apply (proj2 StreamOn_encode_bytes 10 0 0 7 4301 100);
    unfold is_octet, is_uint16; lia.
Defined.

(** C2, as stated, fails on its example: the port bytes are [0xCC, 0x10],
    not [0x2C, 0x10]. *)
Lemma StreamOn_encode_example_differs :
  encode (StreamOn "192.168.1.10" 4300 50)
    <> Ok [18; 192; 168; 1; 10; 0x2C; 0x10; 0x32; 0x00].
Proof. vm_compute. discriminate. Qed.

(** *** Byte 0 of an encoding *)

Lemma setitem_inv (data data' : bytearray) (i : nat) (v : Z) :
  setitem data i v = Ok data' -> data' = <[i := v]> data.
Proof.
  unfold setitem. destruct (i <? length data)%nat; [| discriminate].
  destruct ((0 <=? v) && (v <? 256)); [| discriminate].
  intros Heq. injection Heq as <-. reflexivity.
Qed.

Lemma head_setitem (data data' : bytearray) (i : nat) (v x : Z) :
  head data = Some x -> setitem data (S i) v = Ok data' -> head data' = Some x.
Proof.
  intros Hx Hset. apply setitem_inv in Hset. subst data'.
  destruct data as [| y t]; [discriminate | exact Hx].
Qed.

Lemma head_setslice (data : bytearray) (a b : nat) (bs : list Z) (x : Z) :
  head data = Some x -> head (setslice data (S a) b bs) = Some x.
Proof.
  destruct data as [| y t]; [discriminate |].
  intros Hx. unfold setslice. simpl length.
  rewrite <- Nat.succ_min_distr. exact Hx.
Qed.

Ltac bind_inv H :=
  match type of H with
  | bind ?m _ = Ok _ =>
      let E := fresh "E" in
      destruct m eqn:E; cbn [bind] in H; [| discriminate H]
  end.

Create HintDb encode_head.
#[local] Hint Resolve head_setslice : encode_head.
#[local] Hint Extern 2 (head _ = Some _) =>
  eapply head_setitem; [| eassumption] : encode_head.

Lemma encode_head (c : Command) (b : bytearray) :
  encode c = Ok b -> head b = Some (cmd_id c).
Proof.
  destruct c; simpl encode;
    unfold PowerOff_encode, Move_encode, MoveWheels_encode, PollAll_encode,
      PollSensor_encode, StreamOn_encode, StreamOff_encode;
    cbn [zeros repeat cmd_id]; intros Hb;
    repeat bind_inv Hb;
    repeat match goal with
           | E : setitem _ 0 _ = Ok ?d |- _ =>
               apply setitem_inv in E; cbn in E; subst d
           end;
    try (injection Hb as <-); auto 12 with encode_head.
Qed.

Lemma cmd_id_values (c : Command) :
  In (cmd_id c) [1; 2; 3; 16; 17; 18; 19] /\ cmd_id c <> 0.
Proof. destruct c; simpl; split; (lia || tauto). Qed.

(** *** [DurinActuator.__call__] *)

(** A buffer whose byte 0 is zero: the reply is the empty list and the
    link is not touched. *)
Lemma DurinActuator_call_zero {A T : Type} {E : Encodable A} (action : A)
    (rest : bytearray) (timeout : T) (w : link_world) :
  encode_of action = Ok (0 :: rest) ->
  DurinActuator_call action timeout w = (Ok (Some []), w).
Proof.
  intros He. unfold DurinActuator_call, iobind, lift. rewrite He.
  reflexivity.
Qed.

(** A buffer whose byte 0 is not zero: the buffer is handed to
    [TCPLink.send], and the reply is [None] unless [send] raised. *)
Lemma DurinActuator_call_nonzero {A T : Type} {E : Encodable A} (action : A)
    (byte0 : Z) (rest : bytearray) (timeout : T) (w : link_world) :
  encode_of action = Ok (byte0 :: rest) -> byte0 <> 0 ->
  DurinActuator_call action timeout w =
    (if closed (buffer_send (link w)) then Raise ValueError else Ok None,
     snd (TCPLink_send (byte0 :: rest) timeout w)).
Proof.
  intros He Hnz. unfold DurinActuator_call, iobind, lift. rewrite He.
  cbn [getitem lookup list_lookup].
  destruct (Z.eqb_spec byte0 0) as [Heq | _]; [contradiction |].
  unfold try_except at 1. unfold iobind.
  rewrite NetworkFacts.TCPLink_send_cases. cbv zeta.
  destruct (closed (buffer_send (link w))); [reflexivity |].
  destruct (Queue_full (buffer_send (link w))); reflexivity.
Qed.

Lemma TCPLink_send_trace {T : Type} (command : bytearray) (timeout : T)
    (w : link_world) :
  link_trace (snd (TCPLink_send command timeout w)) =
    link_trace w ++ [EvPut command false].
Proof.
  rewrite NetworkFacts.TCPLink_send_cases. cbv zeta.
  destruct (closed (buffer_send (link w))); [reflexivity |].
  destruct (Queue_full (buffer_send (link w))); reflexivity.
Qed.

(** C10, as amended. Whenever [encode()] of one of the seven command
    variants returns, the buffer is non-empty and its byte 0 is the
    variant's command id, one of 1, 2, 3, 16, 17, 18, 19, all nonzero; for
    every such command [DurinActuator.__call__] does not take the
    empty-reply branch and hands the buffer to [TCPLink.send] exactly once
    (returning [None] when the outbound queue is open). *)
Theorem encoded_command_is_sent :
  forall (c : Command) (b : bytearray),
    encode c = Ok b ->
    (exists rest : bytearray, b = cmd_id c :: rest)
    /\ In (cmd_id c) [1; 2; 3; 16; 17; 18; 19]
    /\ cmd_id c <> 0
    /\ forall (T : Type) (timeout : T) (w : link_world),
        fst (DurinActuator_call c timeout w) <> Ok (Some [])
        /\ link_trace (snd (DurinActuator_call c timeout w)) =
             link_trace w ++ [EvPut b false]
        /\ (closed (buffer_send (link w)) = false ->
            fst (DurinActuator_call c timeout w) = Ok None).
Proof.
  intros c b Hb.
  pose proof (encode_head c b Hb) as Hhead.
  destruct (cmd_id_values c) as [Hin Hnz].
  destruct b as [| byte0 rest]; [discriminate |].
  injection Hhead as ->.
  split; [exists rest; reflexivity |].
  split; [exact Hin |]. split; [exact Hnz |].
  intros T timeout w.
  rewrite (DurinActuator_call_nonzero (E := Command_Encodable)
             c (cmd_id c) rest timeout w Hb Hnz).
  cbn [fst snd]. rewrite TCPLink_send_trace.
  split; [destruct (closed (buffer_send (link w))); discriminate |].
  split; [reflexivity |].
  intros ->. reflexivity.
Qed.

Lemma encoded_command_is_sent_witness :
  link_trace (snd (DurinActuator_call (PollSensor 5) Examples.timeout
                     Examples.link0)) = [EvPut [17; 5] false].
Proof.
  destruct (encoded_command_is_sent (PollSensor 5) [17; 5] eq_refl)
    as (_ & _ & _ & Hcall).
  destruct (Hcall _ Examples.timeout Examples.link0) as (_ & Htrace & _).
  exact Htrace.
Defined.

(** C10, as stated, fails: a command whose field does not fit its wire
    range has no encoding, and the call raises before any send. *)
Lemma out_of_range_command_is_not_sent :
  encode (Move 40000 0 0) = Raise StructError
  /\ DurinActuator_call (Move 40000 0 0) Examples.timeout Examples.link0
     = (Raise StructError, Examples.link0).
Proof. split; reflexivity. Qed.

(** C3, as amended. For every command whose encoding is non-empty with
    byte 0 equal to 0, [DurinActuator.__call__] makes no [put] on the link,
    leaves it unchanged and returns the empty reply list. [PowerOff] is not
    such a command: it encodes to the single byte 1, which is handed to
    [TCPLink.send], and the call does not return the empty list. *)
Theorem zero_id_short_circuits :
  (forall (A T : Type) (E : Encodable A) (action : A) (rest : bytearray)
          (timeout : T) (w : link_world),
      encode_of action = Ok (0 :: rest) ->
      DurinActuator_call action timeout w = (Ok (Some []), w))
  /\ encode PowerOff = Ok [1]
  /\ forall (T : Type) (timeout : T) (w : link_world),
      fst (DurinActuator_call PowerOff timeout w) <> Ok (Some [])
      /\ link_trace (snd (DurinActuator_call PowerOff timeout w)) =
           link_trace w ++ [EvPut [1] false].
Proof.
  split.
  - intros A T E action rest timeout w He.
    exact (DurinActuator_call_zero action rest timeout w He).
  - split; [reflexivity |]. intros T timeout w.
    rewrite (DurinActuator_call_nonzero (E := Command_Encodable)
               PowerOff 1 [] timeout w eq_refl) by discriminate.
    cbn [fst snd]. rewrite TCPLink_send_trace.
    split; [destruct (closed (buffer_send (link w))); discriminate |].
    reflexivity.
Qed.

Lemma zero_id_short_circuits_witness :
  DurinActuator_call (Raw [0; 7]) Examples.timeout Examples.link0
    = (Ok (Some []), Examples.link0).
Proof.
  apply (proj1 zero_id_short_circuits RawCommand _ _ (Raw [0; 7]) [7]).
  reflexivity.
Defined.

(** C3, as stated, fails: [PowerOff] is enqueued and the call returns
    [None], and an empty encoding makes the call raise [IndexError]. *)
Lemma PowerOff_is_sent :
  DurinActuator_call PowerOff Examples.timeout Examples.link0 =
    (Ok None,
     mkLinkWorld
       (mkTCPLink (mkQueue 2 [[1]] false) (mkQueue 100 [] false) false)
       [EvPut [1] false] false)
  /\ DurinActuator_call (Raw []) Examples.timeout Examples.link0
     = (Raise IndexError, Examples.link0).
Proof. split; reflexivity. Qed.

End ActuatorFacts.

(** ** The DVS control plane *)

Module ServerFacts.
Import Py Server Wire BytesFacts.
Local Open Scope Z_scope.

Lemma Z_of_byte_octet (b : Byte.byte) : is_octet (Z_of_byte b).
Proof.
  unfold is_octet, Z_of_byte.
  pose proof (Strings.Byte.to_N_bounded b). lia.
Qed.

Lemma Z_of_byte_zero (b : Byte.byte) : Z_of_byte b = 0 <-> b = Byte.x00.
Proof.
  split; [| intros ->; reflexivity].
  intros Hz. destruct b; first [reflexivity | discriminate Hz].
Qed.

Lemma from_bytes_bound (bs : list Z) :
  Forall is_octet bs -> 0 <= from_bytes bs < 256 ^ Z.of_nat (length bs).
Proof.
  induction 1 as [| b bs [Hlo Hhi] _ IH]; [simpl; lia |].
  cbn [from_bytes length]. rewrite Nat2Z.inj_succ, Z.pow_succ_r by lia. lia.
Qed.

Lemma Forall_Z_of_byte (data : list Byte.byte) :
  Forall is_octet (map Z_of_byte data).
Proof.
  induction data as [| b data IH]; constructor; [apply Z_of_byte_octet | exact IH].
Qed.

(** A read of at most four bytes is an IPv4 address. *)
Lemma from_bytes_slice_bound (data : list Byte.byte) :
  0 <= from_bytes (map Z_of_byte (slice data 1 5)) < 2 ^ 32.
Proof.
  pose proof (from_bytes_bound _ (Forall_Z_of_byte (slice data 1 5))) as [Hlo Hhi].
  split; [exact Hlo |].
  eapply Z.lt_le_trans; [exact Hhi |].
  change (2 ^ 32) with (256 ^ 4). apply Z.pow_le_mono_r; [lia |].
  rewrite length_map. unfold slice. rewrite length_take. lia.
Qed.

(** The address read little-endian from four bytes prints its bytes in
    reverse order. *)
Lemma str_of_ip_address_le (b1 b2 b3 b4 : Z) :
  is_octet b1 -> is_octet b2 -> is_octet b3 -> is_octet b4 ->
  str_of_ip_address (from_bytes [b1; b2; b3; b4]) = dotted_quad b4 b3 b2 b1.
Proof.
  unfold is_octet. intros H1 H2 H3 H4.
  unfold str_of_ip_address, dotted_quad. cbn [from_bytes].
  rewrite !land_255, !Z.shiftr_div_pow2 by lia.
  set (n := b1 + 256 * (b2 + 256 * (b3 + 256 * (b4 + 256 * 0)))).
  assert (E4 : (n / 2 ^ 24) mod 256 = b4).
  { symmetry. apply (Z.mod_unique _ _ 0); [lia |].
    rewrite Z.mul_0_r, Z.add_0_l.
    symmetry. apply (Z.div_unique _ _ _ (b1 + 256 * b2 + 65536 * b3)); lia. }
  assert (E3 : (n / 2 ^ 16) mod 256 = b3).
  { symmetry. apply (Z.mod_unique _ _ b4); [lia |].
    symmetry. apply (Z.div_unique _ _ _ (b1 + 256 * b2)); lia. }
  assert (E2 : (n / 2 ^ 8) mod 256 = b2).
  { symmetry. apply (Z.mod_unique _ _ (b3 + 256 * b4)); [lia |].
    symmetry. apply (Z.div_unique _ _ _ b1); lia. }
  assert (E1 : n mod 256 = b1).
  { symmetry. apply (Z.mod_unique _ _ (b2 + 256 * (b3 + 256 * b4))); lia. }
  rewrite E1, E2, E3, E4. reflexivity.
Qed.

Lemma parse_command_start {W : Type} {S : Streamer W} (rest : list Byte.byte)
    (w : W) :
  _parse_command (Byte.x00 :: rest) w =
    start_stream
      (str_of_ip_address
         (from_bytes (map Z_of_byte (slice (Byte.x00 :: rest) 1 5))))
      (from_bytes (map Z_of_byte (slice (Byte.x00 :: rest) 5 7))) w.
Proof. reflexivity. Qed.

Lemma parse_command_stop {W : Type} {S : Streamer W} (b0 : Byte.byte)
    (rest : list Byte.byte) (w : W) :
  Z_of_byte b0 <> 0 -> _parse_command (b0 :: rest) w = stop_stream w.
Proof.
  intros Hnz. unfold _parse_command. cbn [length Nat.eqb].
  unfold iobind, lift. cbn [getitem lookup list_lookup].
  destruct (Z.eqb_spec (Z_of_byte b0) 0); [contradiction | reflexivity].
Qed.

(** C4. For every non-empty control message [m]: if [m[0] == 0], the
    handler makes exactly one [start_stream(host, port)] call and no
    [stop_stream] call, with [host] the IPv4 address read little-endian
    from bytes 1..4 and [port] read little-endian from bytes 5..6, whatever
    follows byte 6; if [m[0] != 0], it makes exactly one [stop_stream()]
    call and no [start_stream] call. This holds for any streamer, and is
    read off the calls a recording streamer receives. *)
Theorem parse_command_dispatch :
  (forall (m : list Byte.byte) (b0 : Byte.byte),
      m <> [] -> m !! 0%nat = Some b0 ->
      let host :=
        str_of_ip_address (from_bytes (map Z_of_byte (slice m 1 5))) in
      let port := from_bytes (map Z_of_byte (slice m 5 7)) in
      (Z_of_byte b0 = 0 ->
         (forall (W : Type) (S : Streamer W) (w : W),
             _parse_command m w = start_stream host port w)
         /\ forall calls : list streamer_call,
             _parse_command m calls =
               (Ok PyNone, calls ++ [CallStart host port]))
      /\ (Z_of_byte b0 <> 0 ->
         (forall (W : Type) (S : Streamer W) (w : W),
             _parse_command m w = stop_stream w)
         /\ forall calls : list streamer_call,
             _parse_command m calls = (Ok PyNone, calls ++ [CallStop])))
  /\ forall (b1 b2 b3 b4 p0 p1 : Byte.byte) (trailing : list Byte.byte)
            (calls : list streamer_call),
      _parse_command
        (Byte.x00 :: b1 :: b2 :: b3 :: b4 :: p0 :: p1 :: trailing) calls =
        (Ok PyNone,
         calls ++
           [CallStart
              (dotted_quad (Z_of_byte b4) (Z_of_byte b3) (Z_of_byte b2)
                           (Z_of_byte b1))
              (Z_of_byte p0 + 256 * Z_of_byte p1)]).
Proof.
  split.
  - intros [| b rest] b0 _ Hb0 host port; [discriminate |].
    injection Hb0 as ->. split.
    + intros Hz. apply Z_of_byte_zero in Hz. subst b0.
      split; [intros W S w; apply parse_command_start |].
      intros calls. rewrite parse_command_start. reflexivity.
    + intros Hnz.
      split; [intros W S w; apply parse_command_stop; exact Hnz |].
      intros calls. rewrite parse_command_stop by exact Hnz. reflexivity.
  - intros b1 b2 b3 b4 p0 p1 trailing calls.
    rewrite parse_command_start.
    change (slice (Byte.x00 :: b1 :: b2 :: b3 :: b4 :: p0 :: p1 :: trailing) 1 5)
      with [b1; b2; b3; b4].
    change (slice (Byte.x00 :: b1 :: b2 :: b3 :: b4 :: p0 :: p1 :: trailing) 5 7)
      with [p0; p1].
    cbn [map]. rewrite str_of_ip_address_le by apply Z_of_byte_octet.
    cbn [from_bytes start_stream Recorder].
    do 4 f_equal. lia.
Qed.

Lemma parse_command_dispatch_witness :
  _parse_command
    [Byte.x00; Byte.x0a; Byte.x01; Byte.xa8; Byte.xc0; Byte.xcd; Byte.x10] []
    = (Ok PyNone, [CallStart "192.168.1.10" 4301])
  /\ _parse_command [Byte.x01] [] = (Ok PyNone, [CallStop]).
Proof.
  split.
  - refine (proj2 (proj1 (proj1 parse_command_dispatch
             [Byte.x00; Byte.x0a; Byte.x01; Byte.xa8; Byte.xc0; Byte.xcd; Byte.x10]
             Byte.x00 _ eq_refl) _) []); [discriminate | reflexivity].
  - refine (proj2 (proj2 (proj1 parse_command_dispatch [Byte.x01] Byte.x01 _
                            eq_refl) _) []); discriminate.
Defined.

End ServerFacts.

(** ** Stopping a stream twice *)

Module StopFacts.
Import Py Network Server LinkSpec.

(** [stop_stream] of the [AEStreamer] catches whatever its body raises. *)
Lemma AEStreamer_stop_stream_returns (w : ae_world) :
  fst (AEStreamer_stop_stream w) = Ok PyNone.
Proof.
  unfold AEStreamer_stop_stream, try_except.
  match goal with |- context [match ?body with _ => _ end] =>
    destruct body as [[v | e] w'] end.
  - destruct v. reflexivity.
  - reflexivity.
Qed.

(** On a stopped streamer only [pkill] runs, and the handles stay [None]
    whether it succeeds or not. *)
Lemma AEStreamer_stop_stream_stopped (w : ae_world) :
  ae_stopped (streamer w) ->
  streamer (snd (AEStreamer_stop_stream w)) = streamer w.
Proof.
  intros [Ha Hl].
  destruct w as [[a l cs] cam nh sc tr]. simpl in Ha, Hl. subst a l.
  destruct sc as [| [e |] sc]; reflexivity.
Qed.

(** When no external call fails, [stop_stream] leaves a stopped streamer. *)
Lemma AEStreamer_stop_stream_stops (w : ae_world) :
  ae_script w = [] -> ae_stopped (streamer (snd (AEStreamer_stop_stream w))).
Proof.
  destruct w as [[a l cs] cam nh sc tr]. simpl. intros ->.
  destruct a, l; split; reflexivity.
Qed.

(** Without a socket, [stop_stream] of the client does nothing at all. *)
Lemma DVSClient_stop_stream_stopped (depth : nat) (w : client_world) :
  sock (client w) = None -> DVSClient_stop_stream depth w = (Ok PyNone, w).
Proof.
  intros Hs. unfold DVSClient_stop_stream, iobind, get. rewrite Hs. reflexivity.
Qed.

(** A [stop_stream] of the client that returns has dropped the socket. *)
Lemma DVSClient_stop_stream_stops (depth : nat) (w w1 : client_world) :
  DVSClient_stop_stream depth w = (Ok PyNone, w1) -> sock (client w1) = None.
Proof.
  unfold DVSClient_stop_stream, iobind, get.
  destruct (sock (client w)) as [s |] eqn:Hs.
  - destruct (_send_message depth [1%Z] w) as [[v | e] w2]; [| discriminate].
    destruct (sock (client w2)) as [s' |]; [| discriminate].
    cbn. intros Heq. injection Heq as <-. reflexivity.
  - unfold ret. intros Heq. injection Heq as <-. exact Hs.
Qed.

(** C9. [stop_stream()] is idempotent for the [AEStreamer] and for the
    [DVSClient]: called on an already stopped object it raises nothing and
    leaves the process handles, respectively the socket, as they are; and
    a first call that went through (for the streamer: with no external
    failure; for the client: that returned) leaves such a stopped object. *)
Theorem stop_stream_idempotent :
  (forall w : ae_world,
      ae_stopped (streamer w) ->
      fst (AEStreamer_stop_stream w) = Ok PyNone
      /\ streamer (snd (AEStreamer_stop_stream w)) = streamer w)
  /\ (forall w : ae_world,
      ae_script w = [] ->
      let w1 := snd (AEStreamer_stop_stream w) in
      let w2 := snd (AEStreamer_stop_stream w1) in
      fst (AEStreamer_stop_stream w) = Ok PyNone
      /\ ae_stopped (streamer w1)
      /\ fst (AEStreamer_stop_stream w1) = Ok PyNone
      /\ streamer w2 = streamer w1)
  /\ (forall (depth : nat) (w : client_world),
      sock (client w) = None ->
      DVSClient_stop_stream depth w = (Ok PyNone, w))
  /\ (forall (depth depth' : nat) (w w1 : client_world),
      DVSClient_stop_stream depth w = (Ok PyNone, w1) ->
      sock (client w1) = None
      /\ DVSClient_stop_stream depth' w1 = (Ok PyNone, w1)).
Proof.
  split; [| split; [| split]].
  - intros w Hw. split.
    + apply AEStreamer_stop_stream_returns.
    + apply AEStreamer_stop_stream_stopped. exact Hw.
  - intros w Hscript w1 w2.
    pose proof (AEStreamer_stop_stream_stops w Hscript) as Hstopped.
    split; [apply AEStreamer_stop_stream_returns |].
    split; [exact Hstopped |].
    split; [apply AEStreamer_stop_stream_returns |].
    apply AEStreamer_stop_stream_stopped. exact Hstopped.
  - exact DVSClient_stop_stream_stopped.
  - intros depth depth' w w1 Hrun.
    pose proof (DVSClient_stop_stream_stops depth w w1 Hrun) as Hnone.
    split; [exact Hnone |].
    apply DVSClient_stop_stream_stopped. exact Hnone.
Qed.

Lemma stop_stream_idempotent_witness :
  streamer (snd (AEStreamer_stop_stream Examples.ae_idle))
    = streamer Examples.ae_idle
  /\ ae_stopped (streamer (snd (AEStreamer_stop_stream Examples.ae_running)))
  /\ DVSClient_stop_stream 100 Examples.client_idle
     = (Ok PyNone, Examples.client_idle)
  /\ sock (client (snd (DVSClient_stop_stream 100 Examples.client_connected)))
     = None.
Proof.
  destruct stop_stream_idempotent as (Hae & Hae2 & Hcl & Hcl2).
  split; [| split; [| split]].
  - apply (Hae Examples.ae_idle). split; reflexivity.
  - apply (Hae2 Examples.ae_running). reflexivity.
  - apply (Hcl 100 Examples.client_idle). reflexivity.
  - apply (Hcl2 100 100 Examples.client_connected
             (snd (DVSClient_stop_stream 100 Examples.client_connected))).
    reflexivity.
Defined.

End StopFacts.

(** ** The telemetry aggregator *)

Module SensorFacts.
Import Py Sensor SensorSpec.

Lemma array_setslice_ok {A : Type} (arr : list A) (a b : nat) (vals : list A) :
  a <= b -> b <= length arr -> length vals = b - a ->
  array_setslice arr a b vals = Ok (take a arr ++ vals ++ drop b arr).
Proof.
  intros Hab Hb Hlen. unfold array_setslice.
  rewrite (Nat.min_l a) by lia. rewrite (Nat.min_l b) by lia.
  rewrite (Nat.max_r a b) by lia.
  rewrite Hlen, Nat.eqb_refl. reflexivity.
Qed.

Lemma array_setslice_all {A : Type} (arr vals : list A) :
  length vals = length arr ->
  array_setslice arr 0 (length arr) vals = Ok vals.
Proof.
  intros Hlen. rewrite array_setslice_ok by lia.
  rewrite take_0, drop_ge, app_nil_r by lia. reflexivity.
Qed.

(** Reading a spliced array. *)
Lemma lookup_splice {A : Type} (arr vals : list A) (a b i : nat) :
  a <= b -> b <= length arr -> length vals = b - a ->
  (take a arr ++ vals ++ drop b arr) !! i =
    if decide (i < a) then arr !! i
    else if decide (i < b) then vals !! (i - a)
    else arr !! i.
Proof.
  intros Hab Hb Hlen.
  destruct (decide (i < a)) as [Hia | Hia].
  - rewrite lookup_app_l by (rewrite length_take; lia).
    apply lookup_take_lt. exact Hia.
  - rewrite lookup_app_r by (rewrite length_take; lia).
    rewrite length_take, (Nat.min_l a) by lia.
    destruct (decide (i < b)) as [Hib | Hib].
    + apply lookup_app_l. lia.
    + rewrite lookup_app_r by lia. rewrite lookup_drop. f_equal. lia.
Qed.

Lemma lookup_slice {A : Type} (l : list A) (a b i : nat) :
  slice l a b !! i = if decide (i < b - a) then l !! (a + i) else None.
Proof.
  unfold slice. destruct (decide (i < b - a)) as [Hi | Hi].
  - rewrite lookup_take_lt by exact Hi. apply lookup_drop.
  - apply lookup_take_ge. lia.
Qed.

(** *** The ring buffer *)

Lemma mod_shift_ne (c d cap : nat) :
  c < cap -> 0 < d < cap -> (c + d) mod cap <> c.
Proof.
  intros Hc Hd. destruct (le_lt_dec cap (c + d)) as [Hge | Hlt].
  - replace (c + d) with ((c + d - cap) + 1 * cap) by lia.
    rewrite Nat.Div0.mod_add, Nat.mod_small by lia. lia.
  - rewrite Nat.mod_small by lia. lia.
Qed.

Lemma mod_succ_add (c j cap : nat) :
  (S c mod cap + j) mod cap = (c + S j) mod cap.
Proof. rewrite Nat.Div0.add_mod_idemp_l. f_equal. lia. Qed.

(** After a sequence of pushes the buffer holds the latest ones, as many
    as it has room for, each in its slot; the slots no push reached are
    as before. *)
Lemma push_all_spec {num : Type} (xs : list num) :
  forall rb : RingBuffer num,
    counter rb < length (buffer rb) ->
    exists rb' : RingBuffer num,
      push_all rb xs = Ok rb'
      /\ length (buffer rb') = length (buffer rb)
      /\ counter rb' = (counter rb + length xs) mod length (buffer rb)
      /\ (forall (j : nat) (x : num),
            xs !! j = Some x -> length xs - j <= length (buffer rb) ->
            buffer rb' !! ((counter rb + j) mod length (buffer rb)) = Some x)
      /\ (forall p : nat,
            (forall j : nat, j < length xs ->
                (counter rb + j) mod length (buffer rb) <> p) ->
            buffer rb' !! p = buffer rb !! p).
Proof.
  induction xs as [| x xs IH]; intros rb Hc.
  - exists rb. cbn [push_all length]. split; [reflexivity |].
    split; [reflexivity |].
    split; [rewrite Nat.add_0_r, Nat.mod_small by exact Hc; reflexivity |].
    split; [intros j y Hj; discriminate Hj | reflexivity].
  - cbn [push_all]. unfold RingBuffer_append.
    destruct (Nat.ltb_spec (counter rb) (length (buffer rb))); [| lia].
    cbn [bind].
    set (cap := length (buffer rb)) in *.
    set (rb1 := mkRingBuffer (<[counter rb := x]> (buffer rb))
                             (S (counter rb) mod cap)).
    assert (Hcap1 : length (buffer rb1) = cap) by apply length_insert.
    assert (Hc1 : counter rb1 < length (buffer rb1)).
    { rewrite Hcap1. apply Nat.mod_upper_bound. lia. }
    destruct (IH rb1 Hc1) as (rb' & Hrun & Hlen & Hcnt & Hlatest & Hframe).
    rewrite Hcap1 in Hlen, Hcnt, Hlatest, Hframe.
    cbn [counter rb1] in Hcnt, Hlatest, Hframe.
    exists rb'. split; [exact Hrun |]. split; [exact Hlen |].
    split; [rewrite Hcnt, mod_succ_add; reflexivity |].
    split.
    + intros [| j] y Hj Hroom.
      * injection Hj as ->.
        rewrite Nat.add_0_r, Nat.mod_small by exact Hc.
        rewrite Hframe.
        -- apply list_lookup_insert_eq. exact Hc.
        -- intros j Hjlt. rewrite mod_succ_add.
           apply mod_shift_ne; [exact Hc |]. cbn [length] in Hroom. lia.
      * rewrite <- mod_succ_add. apply Hlatest; [exact Hj |].
        cbn [length] in Hroom. lia.
    + intros p Hp. rewrite Hframe.
      * apply list_lookup_insert_ne.
        specialize (Hp 0 ltac:(cbn [length]; lia)).
        rewrite Nat.add_0_r, Nat.mod_small in Hp by exact Hc. exact Hp.
      * intros j Hj. rewrite mod_succ_add. apply Hp. cbn [length]. lia.
Qed.

Section Aggregator.
Context {num : Type} {F : Float num}.
Variable sensors : SENSORS.

Lemma consume_unfold (s : Z) (data : payload num) (now : num) :
  consume sensors (s, data) now =
    ((if (tof_a sensors <=? s)%Z && (s <=? tof_d sensors)%Z then
        let idx := Z.to_nat ((s - tof_a sensors) * 2) in
        do* flat := lift (reshape_flat data) in
        do* w := get in
        do* tof' := lift (array_setslice (tof w) (idx * 64) ((idx + 2) * 64)
                                         (map c_float flat)) in
        set_tof tof'
      else ret tt) ;;
     (if (s =? misc sensors)%Z then
        do* f := lift (misc_fields data) in
        let '(c, v, i) := f in
        set_charge (c_float c) ;;
        set_voltage (c_float v) ;;
        do* w := get in
        do* imu' := lift (array_setslice (imu w) 0 (length (imu w)) i) in
        set_imu imu'
      else ret tt) ;;
     update_hz now)%py.
Proof. reflexivity. Qed.

Lemma update_hz_ok (now : num) (w : shared num) :
  ringbuffer_idx w < length (ringbuffer w) ->
  update_hz now w = (Ok PyNone, push_delta now w).
Proof.
  intros Hidx. unfold update_hz, iobind, get, lift, RingBuffer_append.
  cbn [buffer counter RingBuffer_new].
  destruct (Nat.ltb_spec (ringbuffer_idx w) (length (ringbuffer w))); [| lia].
  cbn [buffer counter].
  rewrite array_setslice_all by apply length_insert.
  reflexivity.
Qed.

Lemma tof_index (s : Z) :
  sensors_wf sensors -> is_tof sensors s ->
  Z.to_nat ((s - tof_a sensors) * 2) + 2 <= 8.
Proof. unfold sensors_wf, is_tof. lia. Qed.

Lemma consume_unknown (s : Z) (data : payload num) (now : num)
    (w : shared num) :
  shared_wf w -> ~ is_tof sensors s -> s <> misc sensors ->
  consume sensors (s, data) now w = (Ok PyNone, push_delta now w).
Proof.
  intros (_ & _ & Hrb & Hidx) Htof Hmisc. rewrite consume_unfold.
  assert (Hr : (tof_a sensors <=? s)%Z && (s <=? tof_d sensors)%Z = false).
  { unfold is_tof in Htof. apply andb_false_iff.
    destruct (Z.leb_spec (tof_a sensors) s); [right | left; reflexivity].
    apply Z.leb_gt. lia. }
  rewrite Hr. rewrite (proj2 (Z.eqb_neq s (misc sensors)) Hmisc).
  unfold iobind at 1 2. unfold ret at 1 2.
  apply update_hz_ok. lia.
Qed.

Lemma consume_tof (s : Z) (flat : list num) (now : num) (w : shared num) :
  sensors_wf sensors -> shared_wf w -> is_tof sensors s ->
  length flat = 128 ->
  consume sensors (s, ArrayData flat) now w =
    (Ok PyNone,
     push_delta now (store_tof (Z.to_nat ((s - tof_a sensors) * 2)) flat w)).
Proof.
  intros Hs (Htof & _ & Hrb & Hidx) Hin Hflat. rewrite consume_unfold.
  pose proof (tof_index s Hs Hin) as Hk.
  assert (Hr : (tof_a sensors <=? s)%Z && (s <=? tof_d sensors)%Z = true).
  { unfold is_tof in Hin. apply andb_true_iff. split; apply Z.leb_le; lia. }
  assert (Hm : (s =? misc sensors)%Z = false).
  { apply Z.eqb_neq. unfold sensors_wf, is_tof in *. lia. }
  rewrite Hr, Hm. cbv zeta.
  set (idx := Z.to_nat ((s - tof_a sensors) * 2)) in *.
  unfold iobind at 1 2 3 4 5. unfold lift, get, reshape_flat, set_tof, modify, ret.
  rewrite array_setslice_ok by (rewrite ?length_map; lia).
  rewrite update_hz_ok by (cbn [ringbuffer ringbuffer_idx]; lia).
  reflexivity.
Qed.

Lemma consume_misc (c v : num) (i : list num) (now : num) (w : shared num) :
  sensors_wf sensors -> shared_wf w -> length i = 9 ->
  consume sensors (misc sensors, MiscData c v i) now w =
    (Ok PyNone, push_delta now (store_misc c v i w)).
Proof.
  intros Hs (_ & Himu & Hrb & Hidx) Hi. rewrite consume_unfold.
  assert (Hr : (tof_a sensors <=? misc sensors)%Z
               && (misc sensors <=? tof_d sensors)%Z = false).
  { unfold sensors_wf in Hs. apply andb_false_iff.
    destruct (Z.leb_spec (tof_a sensors) (misc sensors)); [right | left; reflexivity].
    apply Z.leb_gt. lia. }
  rewrite Hr, Z.eqb_refl.
  unfold iobind at 1 2 3 4 5 6 7.
  unfold lift, get, misc_fields, set_charge, set_voltage, set_imu, modify, ret.
  cbn [imu]. rewrite array_setslice_all by lia.
  rewrite update_hz_ok by (cbn [ringbuffer ringbuffer_idx]; lia).
  reflexivity.
Qed.

Lemma push_delta_wf (now : num) (w : shared num) :
  shared_wf w -> shared_wf (push_delta now w).
Proof.
  intros (Ht & Hi & Hrb & Hidx). unfold shared_wf, push_delta.
  cbn [tof imu ringbuffer ringbuffer_idx]. rewrite length_insert, Hrb.
  repeat split; try assumption. apply Nat.mod_upper_bound. lia.
Qed.

Lemma store_tof_wf (idx : nat) (flat : list num) (w : shared num) :
  idx + 2 <= 8 -> length flat = 128 -> shared_wf w ->
  shared_wf (store_tof idx flat w).
Proof.
  intros Hk Hflat (Ht & Hi & Hrb & Hidx). unfold shared_wf, store_tof.
  cbn [tof imu ringbuffer ringbuffer_idx].
  rewrite !length_app, length_take, length_drop, length_map.
  repeat split; try assumption. lia.
Qed.

(** The depth volume after a depth packet, layer by layer. *)
Lemma store_tof_layers (idx : nat) (flat : list num) (w : shared num) :
  idx + 2 <= 8 -> length flat = 128 -> length (tof w) = 512 ->
  let t' := tof (store_tof idx flat w) in
  slice t' (idx * 64) ((idx + 2) * 64) = map c_float flat
  /\ layer t' idx = take 64 (map c_float flat)
  /\ layer t' (idx + 1) = drop 64 (map c_float flat)
  /\ (forall k : nat, k <> idx -> k <> idx + 1 -> layer t' k = layer (tof w) k)
  /\ (forall i : nat, i < idx * 64 \/ (idx + 2) * 64 <= i ->
        t' !! i = tof w !! i).
Proof.
  intros Hk Hflat Ht t'. unfold t', store_tof. cbn [tof].
  assert (Hvals : length (map c_float flat) = (idx + 2) * 64 - idx * 64)
    by (rewrite length_map; lia).
  assert (Hsplice := fun i =>
    lookup_splice (tof w) (map c_float flat) (idx * 64) ((idx + 2) * 64) i
      ltac:(lia) ltac:(lia) Hvals).
  split; [| split; [| split; [| split]]].
  - apply list_eq. intros i. rewrite lookup_slice, Hsplice.
    destruct (decide (i < (idx + 2) * 64 - idx * 64)).
    + destruct (decide (idx * 64 + i < idx * 64)); [lia |].
      destruct (decide (idx * 64 + i < (idx + 2) * 64)); [| lia].
      f_equal. lia.
    + symmetry. apply lookup_ge_None_2. lia.
  - apply list_eq. intros i. unfold layer. rewrite lookup_slice, Hsplice.
    destruct (decide (i < (idx + 1) * 64 - idx * 64)).
    + destruct (decide (idx * 64 + i < idx * 64)); [lia |].
      destruct (decide (idx * 64 + i < (idx + 2) * 64)); [| lia].
      rewrite lookup_take_lt by lia. f_equal. lia.
    + symmetry. apply lookup_take_ge. lia.
  - apply list_eq. intros i. unfold layer. rewrite lookup_slice, Hsplice.
    rewrite lookup_drop.
    destruct (decide (i < (idx + 1 + 1) * 64 - (idx + 1) * 64)).
    + destruct (decide ((idx + 1) * 64 + i < idx * 64)); [lia |].
      destruct (decide ((idx + 1) * 64 + i < (idx + 2) * 64)); [| lia].
      f_equal. lia.
    + symmetry. apply lookup_ge_None_2. lia.
  - intros k Hk1 Hk2. apply list_eq. intros i. unfold layer.
    rewrite !lookup_slice, Hsplice.
    destruct (decide (i < (k + 1) * 64 - k * 64)); [| reflexivity].
    destruct (decide (k * 64 + i < idx * 64)); [reflexivity |].
    destruct (decide (k * 64 + i < (idx + 2) * 64)); [lia | reflexivity].
  - intros i Hi. rewrite Hsplice.
    destruct (decide (i < idx * 64)); [reflexivity |].
    destruct (decide (i < (idx + 2) * 64)); [lia | reflexivity].
Qed.

(** C5. Consuming a telemetry item whose sensor id [s] lies in
    [tof_a..tof_d] writes its 2x8x8 payload into the flattened 8x8x8 depth
    volume exactly at layers [idx] and [idx + 1], [idx = (s - tof_a) * 2]
    (flattened positions [idx * 64] up to [(idx + 2) * 64]), and leaves
    every other depth layer as well as [charge], [voltage] and [imu]
    unchanged; feeding [tof_a] then [tof_b] fills layers 0, 1 and 2, 3. *)
Theorem consume_tof_layers :
  sensors_wf sensors ->
  (forall (w : shared num) (s : Z) (flat : list num) (now : num),
      shared_wf w -> is_tof sensors s -> length flat = 128 ->
      let idx := Z.to_nat ((s - tof_a sensors) * 2) in
      exists w' : shared num,
        consume sensors (s, ArrayData flat) now w = (Ok PyNone, w')
        /\ idx + 2 <= 8
        /\ length (tof w') = 512
        /\ slice (tof w') (idx * 64) ((idx + 2) * 64) = map c_float flat
        /\ layer (tof w') idx = take 64 (map c_float flat)
        /\ layer (tof w') (idx + 1) = drop 64 (map c_float flat)
        /\ (forall k : nat, k <> idx -> k <> idx + 1 ->
              layer (tof w') k = layer (tof w) k)
        /\ (forall i : nat, i < idx * 64 \/ (idx + 2) * 64 <= i ->
              tof w' !! i = tof w !! i)
        /\ charge w' = charge w /\ voltage w' = voltage w /\ imu w' = imu w)
  /\ (forall (w : shared num) (A B : list num) (now1 now2 : num),
      shared_wf w -> length A = 128 -> length B = 128 ->
      exists w1 w2 : shared num,
        consume sensors (tof_a sensors, ArrayData A) now1 w = (Ok PyNone, w1)
        /\ consume sensors (tof_b sensors, ArrayData B) now2 w1 = (Ok PyNone, w2)
        /\ layer (tof w2) 0 = take 64 (map c_float A)
        /\ layer (tof w2) 1 = drop 64 (map c_float A)
        /\ layer (tof w2) 2 = take 64 (map c_float B)
        /\ layer (tof w2) 3 = drop 64 (map c_float B)
        /\ (forall k : nat, 4 <= k -> layer (tof w2) k = layer (tof w) k)
        /\ charge w2 = charge w /\ voltage w2 = voltage w /\ imu w2 = imu w).
Proof.
  intros Hs. split.
  - intros w s flat now Hw Hin Hflat idx.
    pose proof (tof_index s Hs Hin) as Hk. fold idx in Hk.
    exists (push_delta now (store_tof idx flat w)).
    split; [apply consume_tof; assumption |].
    split; [exact Hk |].
    split; [apply (store_tof_wf idx flat w Hk Hflat Hw) |].
    destruct (store_tof_layers idx flat w Hk Hflat (proj1 Hw))
      as (H1 & H2 & H3 & H4 & H5).
    cbn [push_delta tof charge voltage imu].
    repeat split; assumption.
  - intros w A B now1 now2 Hw HA HB.
    assert (Ha : is_tof sensors (tof_a sensors))
      by (unfold sensors_wf, is_tof in *; lia).
    assert (Hb : is_tof sensors (tof_b sensors))
      by (unfold sensors_wf, is_tof in *; lia).
    assert (Hia : Z.to_nat ((tof_a sensors - tof_a sensors) * 2) = 0) by lia.
    assert (Hib : Z.to_nat ((tof_b sensors - tof_a sensors) * 2) = 2)
      by (unfold sensors_wf in *; lia).
    set (w1 := push_delta now1 (store_tof 0 A w)).
    assert (Hw1 : shared_wf w1)
      by (apply push_delta_wf, store_tof_wf; [lia | assumption ..]).
    exists w1, (push_delta now2 (store_tof 2 B w1)).
    split; [rewrite consume_tof, Hia by assumption; reflexivity |].
    split; [rewrite consume_tof, Hib by assumption; reflexivity |].
    destruct (store_tof_layers 0 A w ltac:(lia) HA (proj1 Hw))
      as (_ & A0 & A1 & Aother & _).
    destruct (store_tof_layers 2 B w1 ltac:(lia) HB (proj1 Hw1))
      as (_ & B2 & B3 & Bother & _).
    cbn [push_delta tof charge voltage imu store_tof] in *.
    split; [rewrite Bother by lia; exact A0 |].
    split; [rewrite Bother by lia; exact A1 |].
    split; [exact B2 |]. split; [exact B3 |].
    split; [| repeat split; reflexivity].
    intros k Hk. rewrite Bother by lia. apply Aother; lia.
Qed.

(** C7, as amended. Consuming a telemetry item whose sensor id matches
    no known sensor (neither in [tof_a..tof_d] nor [misc]) leaves the
    depth volume, [charge], [voltage] and [imu] as they were; the
    frequency estimator is updated as for any item: the delta is written
    into the ring buffer, the ring-buffer index advances and the
    last-update timestamp becomes the current time. *)
Theorem consume_unknown_sensor :
  forall (w : shared num) (s : Z) (data : payload num) (now : num),
    shared_wf w -> ~ is_tof sensors s -> s <> misc sensors ->
    exists w' : shared num,
      consume sensors (s, data) now w = (Ok PyNone, w')
      /\ tof w' = tof w /\ charge w' = charge w /\ voltage w' = voltage w
      /\ imu w' = imu w /\ uwb w' = uwb w
      /\ ringbuffer w' =
           <[ringbuffer_idx w := fsub now (timestamp_update w)]> (ringbuffer w)
      /\ ringbuffer_idx w' = S (ringbuffer_idx w) mod 50
      /\ timestamp_update w' = now.
Proof.
  intros w s data now Hw Htof Hmisc.
  exists (push_delta now w).
  split; [apply consume_unknown; assumption |].
  destruct Hw as (_ & _ & Hrb & _).
  cbn [push_delta tof charge voltage imu uwb ringbuffer ringbuffer_idx
       timestamp_update].
  rewrite Hrb. repeat split; reflexivity.
Qed.

Lemma store_misc_wf (c v : num) (i : list num) (w : shared num) :
  length i = 9 -> shared_wf w -> shared_wf (store_misc c v i w).
Proof.
  intros Hi (Ht & _ & Hrb & Hidx). unfold shared_wf, store_misc.
  cbn [tof imu ringbuffer ringbuffer_idx]. repeat split; assumption.
Qed.

(** Every well-shaped item is consumed, and the frequency update is its
    last effect. *)
Lemma consume_step (item : Z * payload num) (now : num) (w : shared num) :
  sensors_wf sensors -> shared_wf w -> well_shaped sensors item ->
  exists w0 : shared num,
    consume sensors item now w = (Ok PyNone, push_delta now w0)
    /\ shared_wf w0
    /\ ringbuffer w0 = ringbuffer w
    /\ ringbuffer_idx w0 = ringbuffer_idx w
    /\ timestamp_update w0 = timestamp_update w.
Proof.
  intros Hs Hw [Htof Hmisc]. destruct item as [s data].
  cbn [fst snd] in Htof, Hmisc.
  destruct (Z_le_gt_dec (tof_a sensors) s) as [Hlo | Hlo];
    [destruct (Z_le_gt_dec s (tof_d sensors)) as [Hhi | Hhi] |].
  - destruct (Htof (conj Hlo Hhi)) as (flat & -> & Hflat).
    pose proof (tof_index s Hs (conj Hlo Hhi)) as Hk.
    eexists. split; [apply consume_tof; [assumption .. | split; assumption | assumption] |].
    split; [apply store_tof_wf; assumption |]. repeat split; reflexivity.
  - destruct (Z.eq_dec s (misc sensors)) as [-> | Hne].
    + destruct (Hmisc eq_refl) as (c & v & i & -> & Hi).
      eexists. split; [apply consume_misc; assumption |].
      split; [apply store_misc_wf; assumption |]. repeat split; reflexivity.
    + exists w. split; [apply consume_unknown; [assumption | | assumption] |].
      * unfold is_tof. lia.
      * split; [exact Hw | repeat split; reflexivity].
  - destruct (Z.eq_dec s (misc sensors)) as [-> | Hne].
    + destruct (Hmisc eq_refl) as (c & v & i & -> & Hi).
      eexists. split; [apply consume_misc; assumption |].
      split; [apply store_misc_wf; assumption |]. repeat split; reflexivity.
    + exists w. split; [apply consume_unknown; [assumption | | assumption] |].
      * unfold is_tof. lia.
      * split; [exact Hw | repeat split; reflexivity].
Qed.

(** The ring buffer after a run is the ring buffer before it with the
    run's deltas pushed. *)
Lemma consume_all_ring (run : list ((Z * payload num) * num)) :
  sensors_wf sensors ->
  forall w : shared num,
    shared_wf w -> Forall (well_shaped sensors) (map fst run) ->
    exists w' : shared num,
      consume_all sensors run w = (Ok PyNone, w')
      /\ shared_wf w'
      /\ push_all (mkRingBuffer (ringbuffer w) (ringbuffer_idx w))
                  (deltas (timestamp_update w) (map snd run)) =
           Ok (mkRingBuffer (ringbuffer w') (ringbuffer_idx w')).
Proof.
  intros Hs. induction run as [| [item now] run IH]; intros w Hw Hall.
  - exists w. repeat split; try reflexivity; apply Hw.
  - cbn [map fst snd] in Hall. apply Forall_cons in Hall as [Hitem Hall].
    destruct (consume_step item now w Hs Hw Hitem)
      as (w0 & Hrun & Hw0 & Hrb & Hidx & Hts).
    pose proof (push_delta_wf now w0 Hw0) as Hw1.
    destruct (IH (push_delta now w0) Hw1 Hall) as (w' & Hrest & Hw' & Hpush).
    exists w'. split; [| split; [exact Hw' |]].
    + cbn [consume_all]. unfold iobind. rewrite Hrun. exact Hrest.
    + cbn [map fst snd deltas push_all]. unfold RingBuffer_append.
      cbn [buffer counter].
      destruct Hw as (_ & _ & Hlen & Hlt).
      destruct (Nat.ltb_spec (ringbuffer_idx w) (length (ringbuffer w))); [| lia].
      cbn [bind]. rewrite <- Hpush.
      cbn [push_delta ringbuffer ringbuffer_idx timestamp_update].
      rewrite Hrb, Hidx, Hts. reflexivity.
Qed.

(** C8. Every consumed telemetry update writes the delta between the
    current time and the last-update timestamp into the ring buffer of 50
    entries, at the ring-buffer index, which then advances cyclically (so
    that, once the buffer is full, the oldest entry is the one
    overwritten: after any run the buffer holds the latest deltas, up to
    50 of them), and sets the last-update timestamp to the current time;
    [read()] reports the frequency 1 / (mean of the ring buffer + 1e-7). *)
Theorem consume_updates_frequency :
  sensors_wf sensors ->
  (forall (w : shared num) (item : Z * payload num) (now : num),
      shared_wf w -> well_shaped sensors item ->
      exists w' : shared num,
        consume sensors item now w = (Ok PyNone, w')
        /\ ringbuffer w' =
             <[ringbuffer_idx w := fsub now (timestamp_update w)]> (ringbuffer w)
        /\ length (ringbuffer w') = 50
        /\ ringbuffer_idx w' = S (ringbuffer_idx w) mod 50
        /\ timestamp_update w' = now
        /\ obs_frequency (read w') =
             fdiv fone (fadd (fmean (ringbuffer w')) feps))
  /\ (forall (w : shared num) (run : list ((Z * payload num) * num)),
      shared_wf w -> Forall (well_shaped sensors) (map fst run) ->
      exists w' : shared num,
        consume_all sensors run w = (Ok PyNone, w')
        /\ length (ringbuffer w') = 50
        /\ ringbuffer_idx w' = (ringbuffer_idx w + length run) mod 50
        /\ forall (j : nat) (d : num),
             deltas (timestamp_update w) (map snd run) !! j = Some d ->
             length run - j <= 50 ->
             ringbuffer w' !! ((ringbuffer_idx w + j) mod 50) = Some d).
Proof.
  intros Hs. split.
  - intros w item now Hw Hitem.
    destruct (consume_step item now w Hs Hw Hitem)
      as (w0 & Hrun & Hw0 & Hrb & Hidx & Hts).
    exists (push_delta now w0). split; [exact Hrun |].
    destruct Hw as (_ & _ & Hlen & _).
    cbn [push_delta ringbuffer ringbuffer_idx timestamp_update read
         obs_frequency].
    rewrite Hrb, Hidx, Hts, length_insert, Hlen. repeat split; reflexivity.
  - intros w run Hw Hall.
    destruct (consume_all_ring run Hs w Hw Hall) as (w' & Hrun & Hw' & Hpush).
    destruct Hw as (_ & _ & Hlen & Hlt).
    destruct (push_all_spec (deltas (timestamp_update w) (map snd run))
                (mkRingBuffer (ringbuffer w) (ringbuffer_idx w)))
      as (rb' & Hpush' & _ & Hcnt & Hlatest & _);
      [cbn [buffer counter]; lia |].
    rewrite Hpush in Hpush'. injection Hpush' as <-.
    cbn [buffer counter] in Hcnt, Hlatest. rewrite Hlen in Hcnt, Hlatest.
    assert (Hdl : length (deltas (timestamp_update w) (map snd run)) = length run).
    { clear. generalize (timestamp_update w).
      induction run as [| [i t] run IH]; intros l; [reflexivity |].
      cbn [map snd deltas length]. rewrite IH. reflexivity. }
    rewrite Hdl in Hcnt, Hlatest.
    exists w'. split; [exact Hrun |]. split; [apply Hw' |].
    split; [exact Hcnt |]. exact Hlatest.
Qed.

End Aggregator.

End SensorFacts.

(** ** The aggregator on concrete packets *)

Module SensorRuns.
Import Py Sensor SensorSpec SensorFacts QArith Examples.
Local Open Scope nat_scope.

Lemma consume_tof_layers_witness :
  exists w' : shared Q,
    consume Examples.sensors (129%Z, ArrayData (repeat (5 # 1)%Q 128)) (1 # 1)%Q
      (DurinSensor_new (0 # 1)%Q) = (Ok PyNone, w')
    /\ layer (tof w') 2 = repeat (5 # 1)%Q 64
    /\ layer (tof w') 0 = repeat (0 # 1)%Q 64.
Proof.
  assert (Hs : sensors_wf Examples.sensors)
    by (unfold sensors_wf; simpl; lia).
  assert (Hw : shared_wf (DurinSensor_new (0 # 1)%Q))
    by (unfold shared_wf; simpl; lia).
  destruct (proj1 (consume_tof_layers Examples.sensors Hs)
              (DurinSensor_new (0 # 1)%Q) 129%Z (repeat (5 # 1)%Q 128)
              (1 # 1)%Q Hw ltac:(unfold is_tof; simpl; lia) eq_refl)
    as (w' & Hrun & _ & _ & _ & H2 & _ & Hother & _).
  exists w'. split; [exact Hrun |]. split; [exact H2 |].
  rewrite (Hother 0) by (simpl; lia). reflexivity.
Defined.

Lemma consume_unknown_sensor_witness :
  exists w' : shared Q,
    consume Examples.sensors (7%Z, ArrayData []) (1 # 1)%Q
      (DurinSensor_new (0 # 1)%Q) = (Ok PyNone, w')
    /\ tof w' = repeat (0 # 1)%Q 512 /\ timestamp_update w' = (1 # 1)%Q.
Proof.
  destruct (consume_unknown_sensor Examples.sensors
              (DurinSensor_new (0 # 1)%Q) 7%Z (ArrayData []) (1 # 1)%Q)
    as (w' & Hrun & Ht & _ & _ & _ & _ & _ & _ & Hts).
  - unfold shared_wf; simpl; lia.
  - unfold is_tof; simpl; lia.
  - simpl; lia.
  - exists w'. split; [exact Hrun |]. split; [exact Ht | exact Hts].
Defined.

Lemma consume_updates_frequency_witness :
  exists w' : shared Q,
    consume Examples.sensors
      (132%Z, MiscData (80 # 1)%Q (12 # 1)%Q (repeat (0 # 1)%Q 9)) (2 # 1)%Q
      (DurinSensor_new (0 # 1)%Q) = (Ok PyNone, w')
    /\ ringbuffer_idx w' = 1 /\ timestamp_update w' = (2 # 1)%Q.
Proof.
  assert (Hs : sensors_wf Examples.sensors)
    by (unfold sensors_wf; simpl; lia).
  destruct (proj1 (consume_updates_frequency Examples.sensors Hs)
              (DurinSensor_new (0 # 1)%Q)
              (132%Z, MiscData (80 # 1)%Q (12 # 1)%Q (repeat (0 # 1)%Q 9))
              (2 # 1)%Q)
    as (w' & Hrun & _ & _ & Hidx & Hts & _).
  - unfold shared_wf; simpl; lia.
  - split.
    + unfold is_tof; simpl; lia.
    + intros _. eexists _, _, _. split; reflexivity.
  - exists w'. split; [exact Hrun |]. split; [exact Hidx | exact Hts].
Defined.

(** C7, as stated, fails: a packet with an unknown sensor id changes the
    ring buffer, its index and the last-update timestamp. *)
Lemma unknown_sensor_updates_estimator :
  let w := DurinSensor_new (0 # 1)%Q in
  let r := consume Examples.sensors (7%Z, ArrayData []) (1 # 1)%Q w in
  fst r = Ok PyNone
  /\ ringbuffer_idx w = 0 /\ ringbuffer_idx (snd r) = 1
  /\ timestamp_update w = (0 # 1)%Q /\ timestamp_update (snd r) = (1 # 1)%Q
  /\ ringbuffer w !! 0 = Some (0 # 1)%Q /\ ringbuffer (snd r) !! 0 = Some (1 # 1)%Q
  /\ snd r <> w.
Proof.
  vm_compute. repeat split; try reflexivity.
  intros Heq. discriminate Heq.
Qed.

End SensorRuns.

(** ** More on the command codec: domain, size, injectivity *)

Module CodecFacts.
Import Py Network Actuator Wire BytesFacts ActuatorFacts.
Local Open Scope Z_scope.

Lemma is_int16_dec (v : Z) : {is_int16 v} + {~ is_int16 v}.
Proof.
  unfold is_int16.
  destruct (Z_le_dec (-32768) v); [destruct (Z_le_dec v 32767) |];
    [left | right | right]; lia.
Qed.

Lemma is_octet_dec (v : Z) : {is_octet v} + {~ is_octet v}.
Proof.
  unfold is_octet.
  destruct (Z_le_dec 0 v); [destruct (Z_lt_dec v 256) |];
    [left | right | right]; lia.
Qed.

Lemma is_uint16_dec (v : Z) : {is_uint16 v} + {~ is_uint16 v}.
Proof.
  unfold is_uint16.
  destruct (Z_le_dec 0 v); [destruct (Z_lt_dec v 65536) |];
    [left | right | right]; lia.
Qed.

Lemma int16_le_octets (v : Z) : Forall is_octet (int16_le v).
Proof.
  unfold int16_le, is_octet.
  pose proof (Z.mod_pos_bound v 65536 ltac:(lia)) as Hu.
  repeat constructor.
  - apply Z.mod_pos_bound. lia.
  - apply Z.mod_pos_bound. lia.
  - apply Z.div_pos; lia.
  - apply Z.div_lt_upper_bound; lia.
Qed.

Lemma uint16_le_octets (v : Z) : is_uint16 v -> Forall is_octet (uint16_le v).
Proof.
  unfold uint16_le, is_octet, is_uint16. intros Hv.
  repeat constructor.
  - apply Z.mod_pos_bound. lia.
  - apply Z.mod_pos_bound. lia.
  - apply Z.div_pos; lia.
  - apply Z.div_lt_upper_bound; lia.
Qed.

(** Two's complement on 16 bits loses nothing of an int16. *)
Lemma int16_le_inj (x y : Z) :
  is_int16 x -> is_int16 y -> int16_le x = int16_le y -> x = y.
Proof.
  unfold is_int16, int16_le. intros Hx Hy Heq.
  injection Heq as Hlo Hhi.
  assert (Hu : x mod 65536 = y mod 65536).
  { rewrite (Z.div_mod (x mod 65536) 256), (Z.div_mod (y mod 65536) 256) by lia.
    rewrite Hlo, Hhi. reflexivity. }
  clear Hlo Hhi.
  pose proof (Z.div_mod x 65536 ltac:(lia)) as Dx.
  pose proof (Z.div_mod y 65536 ltac:(lia)) as Dy.
  pose proof (Z.mod_pos_bound x 65536 ltac:(lia)) as Bx.
  pose proof (Z.mod_pos_bound y 65536 ltac:(lia)) as By.
  lia.
Qed.

Lemma uint16_le_inj (x y : Z) : uint16_le x = uint16_le y -> x = y.
Proof.
  unfold uint16_le. intros Heq. injection Heq as Hlo Hhi.
  rewrite (Z.div_mod x 256), (Z.div_mod y 256) by lia.
  rewrite Hlo, Hhi. reflexivity.
Qed.

Lemma to_bytes_uint16_raises (v : Z) :
  ~ is_uint16 v -> to_bytes v 2 = Raise OverflowError.
Proof.
  unfold is_uint16, to_bytes. intros Hn.
  change (256 ^ Z.of_nat 2) with 65536.
  destruct (Z.leb_spec 0 v); destruct (Z.ltb_spec v 65536); simpl;
    try reflexivity.
  exfalso. apply Hn. lia.
Qed.

Lemma to_bytes_octet (v : Z) : is_octet v -> to_bytes v 1 = Ok [v].
Proof.
  unfold is_octet, to_bytes. intros Hv.
  change (256 ^ Z.of_nat 1) with 256.
  destruct (Z.leb_spec 0 v); [| lia]. destruct (Z.ltb_spec v 256); [| lia].
  simpl. rewrite land_255, Z.mod_small by lia. reflexivity.
Qed.

Lemma to_bytes_octet_raises (v : Z) :
  ~ is_octet v -> to_bytes v 1 = Raise OverflowError.
Proof.
  unfold is_octet, to_bytes. intros Hn.
  change (256 ^ Z.of_nat 1) with 256.
  destruct (Z.leb_spec 0 v); destruct (Z.ltb_spec v 256); simpl;
    try reflexivity.
  exfalso. apply Hn. lia.
Qed.

Lemma Move_encode_raises (vx vy rot : Z) :
  ~ (is_int16 vx /\ is_int16 vy /\ is_int16 (- rot)) ->
  encode (Move vx vy rot) = Raise StructError.
Proof.
  intros Hn. simpl encode. unfold Move_encode.
  destruct (is_int16_dec vx) as [Hx | Hx];
    [rewrite (pack_h_int16 vx Hx)
    | rewrite (pack_h_out_of_range vx Hx); reflexivity].
  destruct (is_int16_dec vy) as [Hy | Hy];
    [rewrite (pack_h_int16 vy Hy)
    | rewrite (pack_h_out_of_range vy Hy); reflexivity].
  destruct (is_int16_dec (- rot)) as [Hr | Hr];
    [exfalso; exact (Hn (conj Hx (conj Hy Hr)))
    | rewrite (pack_h_out_of_range _ Hr); reflexivity].
Qed.

Lemma MoveWheels_encode_raises (ne nw sw se : Z) :
  ~ (is_int16 (- se) /\ is_int16 sw /\ is_int16 (- ne) /\ is_int16 nw) ->
  encode (MoveWheels ne nw sw se) = Raise StructError.
Proof.
  intros Hn. simpl encode. unfold MoveWheels_encode.
  destruct (is_int16_dec (- se)) as [H1 | H1];
    [rewrite (pack_h_int16 _ H1)
    | rewrite (pack_h_out_of_range _ H1); reflexivity].
  destruct (is_int16_dec sw) as [H2 | H2];
    [rewrite (pack_h_int16 _ H2)
    | rewrite (pack_h_out_of_range _ H2); reflexivity].
  destruct (is_int16_dec (- ne)) as [H3 | H3];
    [rewrite (pack_h_int16 _ H3)
    | rewrite (pack_h_out_of_range _ H3); reflexivity].
  destruct (is_int16_dec nw) as [H4 | H4];
    [exfalso; exact (Hn (conj H1 (conj H2 (conj H3 H4))))
    | rewrite (pack_h_out_of_range _ H4); reflexivity].
Qed.

Lemma PollSensor_encode_layout (sensor_id : Z) :
  is_octet sensor_id -> encode (PollSensor sensor_id) = Ok [17; sensor_id].
Proof.
  intros Hs. simpl encode. unfold PollSensor_encode.
  rewrite (to_bytes_octet _ Hs). reflexivity.
Qed.

Lemma PollSensor_encode_raises (sensor_id : Z) :
  ~ is_octet sensor_id -> encode (PollSensor sensor_id) = Raise OverflowError.
Proof.
  intros Hs. simpl encode. unfold PollSensor_encode.
  rewrite (to_bytes_octet_raises _ Hs). reflexivity.
Qed.

(** X1. [Move], [MoveWheels] and [PollSensor] encode exactly on their wire
    ranges: outside them [Move] and [MoveWheels] raise [struct.error] and
    [PollSensor] raises [OverflowError]; inside them the encoding is the
    fixed layout. *)
Theorem encode_domain :
  (forall vx vy rot : Z,
      (is_int16 vx /\ is_int16 vy /\ is_int16 (- rot) ->
       encode (Move vx vy rot) =
         Ok ([2] ++ int16_le vx ++ int16_le vy ++ int16_le (- rot)))
      /\ (~ (is_int16 vx /\ is_int16 vy /\ is_int16 (- rot)) ->
          encode (Move vx vy rot) = Raise StructError))
  /\ (forall ne nw sw se : Z,
      (is_int16 (- se) /\ is_int16 sw /\ is_int16 (- ne) /\ is_int16 nw ->
       encode (MoveWheels ne nw sw se) =
         Ok ([3] ++ int16_le (- se) ++ int16_le sw ++ int16_le (- ne)
                 ++ int16_le nw))
      /\ (~ (is_int16 (- se) /\ is_int16 sw /\ is_int16 (- ne) /\ is_int16 nw) ->
          encode (MoveWheels ne nw sw se) = Raise StructError))
  /\ (forall sensor_id : Z,
      (is_octet sensor_id -> encode (PollSensor sensor_id) = Ok [17; sensor_id])
      /\ (~ is_octet sensor_id ->
          encode (PollSensor sensor_id) = Raise OverflowError)).
Proof.
  split; [| split].
  - intros vx vy rot. split; [| apply Move_encode_raises].
    intros (Hx & Hy & Hr). apply Move_encode_layout; assumption.
  - intros ne nw sw se. split; [| apply MoveWheels_encode_raises].
    intros (H1 & H2 & H3 & H4). apply MoveWheels_encode_layout; assumption.
  - intros sensor_id.
    split; [apply PollSensor_encode_layout | apply PollSensor_encode_raises].
Qed.

Lemma encode_domain_witness :
  encode (Move 32767 (-32768) 32767) = Ok [2; 255; 127; 0; 128; 1; 128]
  /\ encode (Move 32768 0 0) = Raise StructError
  /\ encode (PollSensor 255) = Ok [17; 255]
  /\ encode (PollSensor 256) = Raise OverflowError.
Proof.
  destruct encode_domain as (HMove & _ & HPoll).
  split; [| split; [| split]].
  - apply (proj1 (HMove 32767 (-32768) 32767)). unfold is_int16. lia.
  - apply (proj2 (HMove 32768 0 0)). unfold is_int16. lia.
  - apply (proj1 (HPoll 255)). unfold is_octet. lia.
  - apply (proj2 (HPoll 256)). unfold is_octet. lia.
Defined.

(** *** Reading an encoding back *)

Ltac bind_inv_as H E :=
  match type of H with
  | bind ?m _ = Ok _ => destruct m eqn:E; cbn [bind] in H; [| discriminate H]
  end.

Lemma getitem_inv {A : Type} (l : list A) (i : nat) (x : A) :
  getitem l i = Ok x -> l !! i = Some x.
Proof.
  unfold getitem. destruct (l !! i); [| discriminate].
  intros Heq. injection Heq as <-. reflexivity.
Qed.

Lemma setitem_inv_octet (data data' : bytearray) (i : nat) (v : Z) :
  setitem data i v = Ok data' -> is_octet v /\ data' = <[i := v]> data.
Proof.
  unfold setitem, is_octet. destruct (i <? length data)%nat; [| discriminate].
  destruct (Z.leb_spec 0 v); destruct (Z.ltb_spec v 256); simpl;
    try discriminate.
  intros Heq. injection Heq as <-. split; [lia | reflexivity].
Qed.

Lemma to_bytes_uint16_inv (v : Z) (bs : list Z) :
  to_bytes v 2 = Ok bs -> is_uint16 v /\ bs = uint16_le v.
Proof.
  destruct (is_uint16_dec v) as [Hv | Hv].
  - rewrite (to_bytes_uint16 v Hv). intros Heq. injection Heq as <-.
    split; [exact Hv | reflexivity].
  - rewrite (to_bytes_uint16_raises v Hv). discriminate.
Qed.

Lemma StreamOn_encode_inv (host : string) (port period : Z) (b : bytearray) :
  encode (StreamOn host port period) = Ok b ->
  exists (h0 h1 h2 h3 : string) (o0 o1 o2 o3 : Z),
    split "."%char host !! 0%nat = Some h0
    /\ split "."%char host !! 1%nat = Some h1
    /\ split "."%char host !! 2%nat = Some h2
    /\ split "."%char host !! 3%nat = Some h3
    /\ int_of_str h0 = Ok o0 /\ int_of_str h1 = Ok o1
    /\ int_of_str h2 = Ok o2 /\ int_of_str h3 = Ok o3
    /\ is_octet o0 /\ is_octet o1 /\ is_octet o2 /\ is_octet o3
    /\ is_uint16 port /\ is_uint16 period
    /\ b = [18; o0; o1; o2; o3] ++ uint16_le port ++ uint16_le period.
Proof.
  simpl encode. unfold StreamOn_encode. cbn [zeros repeat cmd_id]. intros Hb.
  bind_inv_as Hb E. apply setitem_inv in E. cbn in E. subst.
  bind_inv_as Hb Eh0. bind_inv_as Hb Ei0. bind_inv_as Hb Es0.
  apply setitem_inv_octet in Es0 as [Ho0 ->].
  bind_inv_as Hb Eh1. bind_inv_as Hb Ei1. bind_inv_as Hb Es1.
  apply setitem_inv_octet in Es1 as [Ho1 ->].
  bind_inv_as Hb Eh2. bind_inv_as Hb Ei2. bind_inv_as Hb Es2.
  apply setitem_inv_octet in Es2 as [Ho2 ->].
  bind_inv_as Hb Eh3. bind_inv_as Hb Ei3. bind_inv_as Hb Es3.
  apply setitem_inv_octet in Es3 as [Ho3 ->].
  bind_inv_as Hb Eport. apply to_bytes_uint16_inv in Eport as [Hp ->].
  bind_inv_as Hb Eperiod. apply to_bytes_uint16_inv in Eperiod as [Hq ->].
  injection Hb as <-.
  apply getitem_inv in Eh0, Eh1, Eh2, Eh3.
  do 8 eexists.
  repeat (split; [eassumption |]). reflexivity.
Qed.

(** X2. Whatever [StreamOn(host, port, period).encode()] returns, [host]
    has at least four dot-separated fields, the first four read as
    integers in 0..255 and are the octets on the wire, and [port] and
    [period] are in the uint16 range: no other [StreamOn] is ever
    encoded. *)
Theorem StreamOn_encode_only_valid :
  forall (host : string) (port period : Z) (b : bytearray),
    encode (StreamOn host port period) = Ok b ->
    exists (h0 h1 h2 h3 : string) (o0 o1 o2 o3 : Z),
      split "."%char host !! 0%nat = Some h0
      /\ split "."%char host !! 1%nat = Some h1
      /\ split "."%char host !! 2%nat = Some h2
      /\ split "."%char host !! 3%nat = Some h3
      /\ int_of_str h0 = Ok o0 /\ int_of_str h1 = Ok o1
      /\ int_of_str h2 = Ok o2 /\ int_of_str h3 = Ok o3
      /\ is_octet o0 /\ is_octet o1 /\ is_octet o2 /\ is_octet o3
      /\ is_uint16 port /\ is_uint16 period
      /\ b = [18; o0; o1; o2; o3] ++ uint16_le port ++ uint16_le period.
Proof. exact StreamOn_encode_inv. Qed.

Lemma StreamOn_encode_only_valid_witness :
  exists (h0 h1 h2 h3 : string) (o0 o1 o2 o3 : Z),
    split "."%char "10.0.0.7" !! 0%nat = Some h0
    /\ split "."%char "10.0.0.7" !! 1%nat = Some h1
    /\ split "."%char "10.0.0.7" !! 2%nat = Some h2
    /\ split "."%char "10.0.0.7" !! 3%nat = Some h3
    /\ int_of_str h0 = Ok o0 /\ int_of_str h1 = Ok o1
    /\ int_of_str h2 = Ok o2 /\ int_of_str h3 = Ok o3
    /\ is_octet o0 /\ is_octet o1 /\ is_octet o2 /\ is_octet o3
    /\ is_uint16 4301 /\ is_uint16 100
    /\ [18; 10; 0; 0; 7; 205; 16; 100; 0] =
         [18; o0; o1; o2; o3] ++ uint16_le 4301 ++ uint16_le 100.
Proof.
  apply (StreamOn_encode_only_valid "10.0.0.7" 4301 100). reflexivity.
Defined.

Lemma Move_encode_inv (vx vy rot : Z) (b : bytearray) :
  encode (Move vx vy rot) = Ok b ->
  is_int16 vx /\ is_int16 vy /\ is_int16 (- rot)
  /\ b = [2] ++ int16_le vx ++ int16_le vy ++ int16_le (- rot).
Proof.
  intros Hb.
  destruct (is_int16_dec vx) as [Hx | Hx];
    [| rewrite Move_encode_raises in Hb by tauto; discriminate].
  destruct (is_int16_dec vy) as [Hy | Hy];
    [| rewrite Move_encode_raises in Hb by tauto; discriminate].
  destruct (is_int16_dec (- rot)) as [Hr | Hr];
    [| rewrite Move_encode_raises in Hb by tauto; discriminate].
  rewrite Move_encode_layout in Hb by assumption. injection Hb as <-.
  repeat (split; [assumption |]). reflexivity.
Qed.

Lemma MoveWheels_encode_inv (ne nw sw se : Z) (b : bytearray) :
  encode (MoveWheels ne nw sw se) = Ok b ->
  is_int16 (- se) /\ is_int16 sw /\ is_int16 (- ne) /\ is_int16 nw
  /\ b = [3] ++ int16_le (- se) ++ int16_le sw ++ int16_le (- ne)
             ++ int16_le nw.
Proof.
  intros Hb.
  destruct (is_int16_dec (- se)) as [H1 | H1];
    [| rewrite MoveWheels_encode_raises in Hb by tauto; discriminate].
  destruct (is_int16_dec sw) as [H2 | H2];
    [| rewrite MoveWheels_encode_raises in Hb by tauto; discriminate].
  destruct (is_int16_dec (- ne)) as [H3 | H3];
    [| rewrite MoveWheels_encode_raises in Hb by tauto; discriminate].
  destruct (is_int16_dec nw) as [H4 | H4];
    [| rewrite MoveWheels_encode_raises in Hb by tauto; discriminate].
  rewrite MoveWheels_encode_layout in Hb by assumption. injection Hb as <-.
  repeat (split; [assumption |]). reflexivity.
Qed.

Lemma PollSensor_encode_inv (sensor_id : Z) (b : bytearray) :
  encode (PollSensor sensor_id) = Ok b ->
  is_octet sensor_id /\ b = [17; sensor_id].
Proof.
  intros Hb. destruct (is_octet_dec sensor_id) as [Hs | Hs].
  - rewrite (PollSensor_encode_layout _ Hs) in Hb. injection Hb as <-.
    split; [exact Hs | reflexivity].
  - rewrite (PollSensor_encode_raises _ Hs) in Hb. discriminate.
Qed.

Lemma Forall_octet_cons (v : Z) (l : list Z) :
  is_octet v -> Forall is_octet l -> Forall is_octet (v :: l).
Proof. intros Hv Hl. constructor; assumption. Qed.

(** X3. Every encoding has the fixed size of its variant (1, 7, 9, 1, 2,
    9, 1 bytes) and all its elements are bytes, in 0..255. *)
Theorem encode_fixed_size :
  forall (c : Command) (b : bytearray),
    encode c = Ok b ->
    length b = wire_length c /\ Forall is_octet b.
Proof.
  intros c b Hb. destruct c as [| vx vy rot | ne nw sw se | | sid
                               | host port period |].
  - injection Hb as <-. split; [reflexivity |].
    repeat constructor; unfold is_octet; simpl; lia.
  - apply Move_encode_inv in Hb as (_ & _ & _ & ->).
    split; [reflexivity |].
    apply Forall_octet_cons; [unfold is_octet; lia |].
    rewrite !Forall_app. repeat split; apply int16_le_octets.
  - apply MoveWheels_encode_inv in Hb as (_ & _ & _ & _ & ->).
    split; [reflexivity |].
    apply Forall_octet_cons; [unfold is_octet; lia |].
    rewrite !Forall_app. repeat split; apply int16_le_octets.
  - injection Hb as <-. split; [reflexivity |].
    repeat constructor; unfold is_octet; simpl; lia.
  - apply PollSensor_encode_inv in Hb as (Hs & ->).
    split; [reflexivity |].
    apply Forall_octet_cons; [unfold is_octet; lia |].
    apply Forall_octet_cons; [exact Hs | constructor].
  - apply StreamOn_encode_inv in Hb
      as (h0 & h1 & h2 & h3 & o0 & o1 & o2 & o3 & _ & _ & _ & _ & _ & _ & _ & _
          & H0 & H1 & H2 & H3 & Hp & Hq & ->).
    split; [reflexivity |].
    change ([18; o0; o1; o2; o3] ++ uint16_le port ++ uint16_le period)
      with (18 :: o0 :: o1 :: o2 :: o3 :: uint16_le port ++ uint16_le period).
    repeat (apply Forall_octet_cons; [first [assumption | unfold is_octet; lia] |]).
    rewrite Forall_app. split; apply uint16_le_octets; assumption.
  - injection Hb as <-. split; [reflexivity |].
    repeat constructor; unfold is_octet; simpl; lia.
Qed.

Lemma encode_fixed_size_witness :
  length [3; 252; 255; 3; 0; 255; 255; 2; 0] = 9%nat
  /\ Forall is_octet [3; 252; 255; 3; 0; 255; 255; 2; 0].
Proof.
  apply (encode_fixed_size (MoveWheels 1 2 3 4)). reflexivity.
Defined.

(** X4. The encoding is injective up to the spelling of a [StreamOn]
    host: two commands with the same encoding are the same command, or
    two [StreamOn] with equal port and period. *)
Theorem encode_injective :
  forall (c1 c2 : Command) (b : bytearray),
    encode c1 = Ok b -> encode c2 = Ok b -> same_on_wire c1 c2.
Proof.
  intros c1 c2 b H1 H2.
  pose proof (encode_head c1 b H1) as Hh1.
  pose proof (encode_head c2 b H2) as Hh2.
  rewrite Hh1 in Hh2. injection Hh2 as Hid.
  destruct c1 as [| vx vy rot | ne nw sw se | | sid | host port period |];
    destruct c2 as [| vx' vy' rot' | ne' nw' sw' se' | | sid'
                   | host' port' period' |];
    simpl in Hid; try discriminate Hid; clear Hid Hh1;
    try reflexivity.
  - apply Move_encode_inv in H1 as (Hx & Hy & Hr & ->).
    apply Move_encode_inv in H2 as (Hx' & Hy' & Hr' & Heq).
    unfold int16_le in Heq. cbn [app] in Heq.
    injection Heq as Ea1 Ea2 Eb1 Eb2 Ec1 Ec2.
    assert (vx = vx') by (apply int16_le_inj; [assumption .. | unfold int16_le; congruence]).
    assert (vy = vy') by (apply int16_le_inj; [assumption .. | unfold int16_le; congruence]).
    assert (- rot = - rot') by (apply int16_le_inj; [assumption .. | unfold int16_le; congruence]).
    simpl. f_equal; lia.
  - apply MoveWheels_encode_inv in H1 as (Ha & Hb & Hc & Hd & ->).
    apply MoveWheels_encode_inv in H2 as (Ha' & Hb' & Hc' & Hd' & Heq).
    unfold int16_le in Heq. cbn [app] in Heq.
    injection Heq as Ea1 Ea2 Eb1 Eb2 Ec1 Ec2 Ed1 Ed2.
    assert (- se = - se') by (apply int16_le_inj; [assumption .. | unfold int16_le; congruence]).
    assert (sw = sw') by (apply int16_le_inj; [assumption .. | unfold int16_le; congruence]).
    assert (- ne = - ne') by (apply int16_le_inj; [assumption .. | unfold int16_le; congruence]).
    assert (nw = nw') by (apply int16_le_inj; [assumption .. | unfold int16_le; congruence]).
    simpl. f_equal; lia.
  - apply PollSensor_encode_inv in H1 as (_ & ->).
    apply PollSensor_encode_inv in H2 as (_ & Heq).
    injection Heq as ->. reflexivity.
  - apply StreamOn_encode_inv in H1
      as (? & ? & ? & ? & ? & ? & ? & ? & _ & _ & _ & _ & _ & _ & _ & _
          & _ & _ & _ & _ & _ & _ & ->).
    apply StreamOn_encode_inv in H2
      as (? & ? & ? & ? & ? & ? & ? & ? & _ & _ & _ & _ & _ & _ & _ & _
          & _ & _ & _ & _ & _ & _ & Heq).
    unfold uint16_le in Heq. cbn [app] in Heq.
    injection Heq as _ _ _ _ Ep1 Ep2 Eq1 Eq2.
    simpl. split; apply uint16_le_inj; unfold uint16_le; congruence.
Qed.

Lemma encode_injective_witness :
  same_on_wire (StreamOn "10.0.0.7" 4301 100) (StreamOn " 10.0.0.07" 4301 100).
Proof.
  apply (encode_injective _ _ [18; 10; 0; 0; 7; 205; 16; 100; 0]);
    reflexivity.
Defined.

(** X5. [StreamOn.encode()] reads the first four dot-separated fields of
    [host] and nothing else: fields after the fourth are ignored, and a
    host of only three fields raises [IndexError]. *)
Theorem StreamOn_encode_host_fields :
  forall (a b c d port period : Z) (more : string),
    is_octet a -> is_octet b -> is_octet c -> is_octet d ->
    encode (StreamOn (str_of_Z a ++ "." ++ str_of_Z b ++ "." ++ str_of_Z c
                        ++ "." ++ str_of_Z d ++ "." ++ more) port period)
      = encode (StreamOn (dotted_quad a b c d) port period)
    /\ encode (StreamOn (str_of_Z a ++ "." ++ str_of_Z b ++ "." ++ str_of_Z c)
                        port period)
       = Raise IndexError.
Proof.
  intros a b c d port period more Ha Hb Hc Hd.
  destruct (octet_str a Ha) as [Hna Hia]. destruct (octet_str b Hb) as [Hnb Hib].
  destruct (octet_str c Hc) as [Hnc Hic]. destruct (octet_str d Hd) as [Hnd Hid].
  split.
  - simpl encode. unfold StreamOn_encode.
    rewrite (split_dotted_quad a b c d Ha Hb Hc Hd).
    cbn [String.append].
    rewrite !split_app by assumption.
    reflexivity.
  - simpl encode. unfold StreamOn_encode.
    cbn [String.append].
    rewrite !split_app by assumption. rewrite split_last by assumption.
    unfold zeros. cbn [repeat cmd_id].
    rewrite setitem_octet by (simpl; unfold is_octet; lia).
    cbn [bind getitem lookup list_lookup].
    rewrite Hia. cbn [bind].
    rewrite setitem_octet by first [assumption | simpl; lia].
    cbn [bind getitem lookup list_lookup].
    rewrite Hib. cbn [bind].
    rewrite setitem_octet by first [assumption | simpl; lia].
    cbn [bind getitem lookup list_lookup].
    rewrite Hic. cbn [bind].
    rewrite setitem_octet by first [assumption | simpl; lia].
    reflexivity.
Qed.

Lemma StreamOn_encode_host_fields_witness :
  encode (StreamOn "10.0.0.7.99.x" 4301 100)
    = encode (StreamOn "10.0.0.7" 4301 100)
  /\ encode (StreamOn "10.0.0" 4301 100) = Raise IndexError.
Proof.
  apply (StreamOn_encode_host_fields 10 0 0 7 4301 100 "99.x");
    unfold is_octet; lia.
Defined.

End CodecFacts.

(** ** More on the TCP link: saturation and reading *)

Module LinkFacts.
Import Py Network LinkSpec NetworkFacts.

Lemma Queue_full_iff {A : Type} (q : Queue A) :
  (0 < maxsize q)%Z ->
  Queue_full q = true <-> (Z.to_nat (maxsize q) <= length (items q))%nat.
Proof.
  intros Hpos. unfold Queue_full.
  destruct (Z.ltb_spec 0 (maxsize q)); [| lia]. simpl.
  rewrite Z.leb_le. lia.
Qed.

Lemma send_all_bounded {T : Type} (commands : list bytearray) (timeout : T) :
  forall w : link_world,
    closed (buffer_send (link w)) = false ->
    (0 < maxsize (buffer_send (link w)))%Z ->
    (length (items (buffer_send (link w)))
       <= Z.to_nat (maxsize (buffer_send (link w))))%nat ->
    exists w' : link_world,
      send_all commands timeout w = (Ok PyNone, w')
      /\ buffer_send (link w') =
           mkQueue (maxsize (buffer_send (link w)))
                   (take (Z.to_nat (maxsize (buffer_send (link w))))
                         (items (buffer_send (link w)) ++ commands))
                   false
      /\ buffer_receive (link w') = buffer_receive (link w)
      /\ link_waited w' = link_waited w
      /\ link_trace w' =
           link_trace w ++ map (fun c => EvPut c false) commands.
Proof.
  induction commands as [| c rest IH]; intros w Hopen Hpos Hlen.
  - exists w. cbn [send_all ret]. split; [reflexivity |].
    rewrite !app_nil_r, take_ge by lia.
    destruct w as [[[m l cl] r sc] tr wt]. simpl in *. subst cl.
    repeat split.
  - cbn [send_all]. unfold iobind. rewrite TCPLink_send_cases. cbv zeta.
    rewrite Hopen.
    destruct (Queue_full (buffer_send (link w))) eqn:Hfull.
    + apply Queue_full_iff in Hfull; [| exact Hpos].
      destruct (IH (after_put w c (buffer_send (link w))))
        as (w' & Hrun & Hq & Hr & Hw & Htr); try assumption.
      exists w'. split; [exact Hrun |].
      cbn [after_put link buffer_send buffer_receive link_waited link_trace]
        in Hq, Hr, Hw, Htr.
      split; [| split; [exact Hr | split]].
      * rewrite Hq. f_equal.
        rewrite !take_app_le by lia. reflexivity.
      * rewrite Hw. apply orb_false_r.
      * rewrite Htr, <- app_assoc. reflexivity.
    + assert (Hroom : (length (items (buffer_send (link w)))
                         < Z.to_nat (maxsize (buffer_send (link w))))%nat).
      { destruct (le_lt_dec (Z.to_nat (maxsize (buffer_send (link w))))
                            (length (items (buffer_send (link w)))))
          as [Hge | Hlt]; [| exact Hlt].
        apply Queue_full_iff in Hge; [congruence | exact Hpos]. }
      destruct (IH (after_put w c
                      (mkQueue (maxsize (buffer_send (link w)))
                               (items (buffer_send (link w)) ++ [c]) false)))
        as (w' & Hrun & Hq & Hr & Hw & Htr);
        try (cbn [after_put link buffer_send maxsize items closed];
             rewrite ?length_app; simpl; first [reflexivity | lia]).
      exists w'. split; [exact Hrun |].
      cbn [after_put link buffer_send buffer_receive link_waited link_trace
           maxsize items] in Hq, Hr, Hw, Htr.
      split; [| split; [exact Hr | split]].
      * rewrite Hq, <- app_assoc. reflexivity.
      * rewrite Hw. apply orb_false_r.
      * rewrite Htr, <- app_assoc. reflexivity.
Qed.

(** X6. Sending any number of commands through [TCPLink.send] on an open
    outbound queue of capacity [C > 0], with nothing taken out in between,
    never raises and never waits; the queue ends up holding, in order, what
    it held plus the commands that still fitted, [C] items at most: the
    excess is dropped, and the capacity itself is unchanged. *)
Theorem send_saturation :
  forall (T : Type) (commands : list bytearray) (timeout : T) (w : link_world),
    closed (buffer_send (link w)) = false ->
    (0 < maxsize (buffer_send (link w)))%Z ->
    (length (items (buffer_send (link w)))
       <= Z.to_nat (maxsize (buffer_send (link w))))%nat ->
    exists w' : link_world,
      send_all commands timeout w = (Ok PyNone, w')
      /\ buffer_send (link w') =
           mkQueue (maxsize (buffer_send (link w)))
                   (take (Z.to_nat (maxsize (buffer_send (link w))))
                         (items (buffer_send (link w)) ++ commands))
                   false
      /\ (length (items (buffer_send (link w')))
            <= Z.to_nat (maxsize (buffer_send (link w'))))%nat
      /\ buffer_receive (link w') = buffer_receive (link w)
      /\ link_waited w' = link_waited w.
Proof.
  intros T commands timeout w Hopen Hpos Hlen.
  destruct (send_all_bounded commands timeout w Hopen Hpos Hlen)
    as (w' & Hrun & Hq & Hr & Hw & _).
  exists w'. split; [exact Hrun |]. split; [exact Hq |].
  split; [| split; assumption].
  rewrite Hq. cbn [items maxsize]. rewrite length_take. lia.
Qed.

Lemma send_saturation_witness :
  exists w' : link_world,
    send_all [[16%Z]; [2%Z; 1%Z]; [19%Z]] Examples.timeout Examples.link0
      = (Ok PyNone, w')
    /\ items (buffer_send (link w')) = [[16%Z]; [2%Z; 1%Z]].
Proof.
  destruct (send_saturation _ [[16%Z]; [2%Z; 1%Z]; [19%Z]] Examples.timeout
              Examples.link0 eq_refl)
    as (w' & Hrun & Hq & _); [reflexivity | simpl; lia |].
  exists w'. split; [exact Hrun |]. rewrite Hq. reflexivity.
Defined.




End LinkFacts.

(** ** More on the DVS client *)

Module ClientFacts.
Import Py Network Server Wire LinkSpec BytesFacts ServerFacts.

(** What one [self.sock.send(message)] does. *)
Lemma sock_send_cases (message : list Z) (w : client_world) :
  sock_send message w =
    match sock (client w) with
    | None => (Raise AttributeError, w)
    | Some s =>
        let tr := sock_trace w ++ [EvSend s message] in
        match script w with
        | [] => (Ok PyNone, mkClientWorld (client w) (next_socket w) [] tr)
        | None :: rest =>
            (Ok PyNone, mkClientWorld (client w) (next_socket w) rest tr)
        | Some e :: rest =>
            (Raise e, mkClientWorld (client w) (next_socket w) rest tr)
        end
    end.
Proof.
  destruct w as [[s addr] n sc tr]. destruct s as [s |]; [| reflexivity].
  destruct sc as [| [e |] rest]; reflexivity.
Qed.

(** X8. Whenever [DVSClient._send_message(message)] returns, the client
    holds a socket and the last thing done on the network is the send of
    [message] on that very socket, whatever reconnections came before. *)
Theorem send_message_sends_last :
  forall (depth : nat) (message : list Z) (w w' : client_world),
    _send_message depth message w = (Ok PyNone, w') ->
    exists (s : nat) (before : list sock_event),
      sock (client w') = Some s
      /\ sock_trace w' = before ++ [EvSend s message].
Proof.
  induction depth as [| depth IH]; intros message w w' Hrun;
    [discriminate Hrun |].
  cbn [_send_message] in Hrun. unfold try_except at 1 in Hrun.
  rewrite sock_send_cases in Hrun.
  assert (Hretry : forall w1 : client_world,
             (try_except _init_connection is_ConnectionRefused
                (fun _ => raise ConnectionRefusedError) ;;
              _send_message depth message)%py w1 = (Ok PyNone, w') ->
             exists (s : nat) (before : list sock_event),
               sock (client w') = Some s
               /\ sock_trace w' = before ++ [EvSend s message]).
  { intros w1 H1. unfold iobind in H1.
    destruct (try_except _init_connection is_ConnectionRefused
                (fun _ => raise ConnectionRefusedError) w1) as [[v | e] w2];
      [| discriminate H1].
    exact (IH message w2 w' H1). }
  destruct (sock (client w)) as [s |] eqn:Hs.
  - cbv zeta in Hrun.
    destruct (script w) as [| [e |] rest].
    + injection Hrun as <-. exists s, (sock_trace w).
      split; [exact Hs | reflexivity].
    + destruct (is_BrokenPipe_or_Attribute e); [| discriminate Hrun].
      exact (Hretry _ Hrun).
    + injection Hrun as <-. exists s, (sock_trace w).
      split; [exact Hs | reflexivity].
  - cbn [is_BrokenPipe_or_Attribute] in Hrun. exact (Hretry _ Hrun).
Qed.

Lemma send_message_sends_last_witness :
  exists (s : nat) (before : list sock_event),
    sock (client (snd (_send_message 5 [1%Z] Examples.client_idle))) = Some s
    /\ sock_trace (snd (_send_message 5 [1%Z] Examples.client_idle))
       = before ++ [EvSend s [1%Z]].
Proof.
  apply (send_message_sends_last 5 [1%Z] Examples.client_idle). reflexivity.
Defined.

(** X9. A client without a socket connects lazily: with nothing failing,
    [_send_message] opens one socket, connects it to the client's address
    and sends the message once on it. *)
Theorem send_message_connects_lazily :
  forall (depth : nat) (message : list Z) (w : client_world),
    sock (client w) = None -> script w = [] ->
    _send_message (S (S depth)) message w =
      (Ok PyNone,
       mkClientWorld
         (mkDVSClient (Some (next_socket w)) (address (client w)))
         (S (next_socket w)) []
         (sock_trace w ++
            [EvSocket (next_socket w);
             EvConnect (next_socket w) (fst (address (client w)))
                       (snd (address (client w)));
             EvSend (next_socket w) message])).
Proof.
  intros depth message [[s addr] n sc tr] Hs Hsc. simpl in Hs, Hsc. subst s sc.
  cbn. rewrite <- !app_assoc. reflexivity.
Qed.

Lemma send_message_connects_lazily_witness :
  _send_message 2 [1%Z] Examples.client_idle =
    (Ok PyNone,
     mkClientWorld (mkDVSClient (Some 0%nat) ("10.0.0.2"%string, 2301%Z)) 1 []
       [EvSocket 0; EvConnect 0 "10.0.0.2" 2301; EvSend 0 [1%Z]]).
Proof.
  apply (send_message_connects_lazily 0 [1%Z] Examples.client_idle);
    reflexivity.
Defined.

(** X10. When the lazy connect fails, [_send_message] raises what
    [connect] raised, nothing is sent, and the client is left holding the
    new, unconnected socket: it is not reset to [None]. *)
Theorem send_message_failed_connect :
  forall (depth : nat) (message : list Z) (w : client_world) (e : exn)
         (rest : list (option exn)),
    sock (client w) = None -> script w = Some e :: rest ->
    _send_message (S depth) message w =
      (Raise e,
       mkClientWorld
         (mkDVSClient (Some (next_socket w)) (address (client w)))
         (S (next_socket w)) rest
         (sock_trace w ++
            [EvSocket (next_socket w);
             EvConnect (next_socket w) (fst (address (client w)))
                       (snd (address (client w)))])).
Proof.
  intros depth message [[s addr] n sc tr] e rest Hs Hsc.
  simpl in Hs, Hsc. subst s sc.
  destruct e; cbn; rewrite <- !app_assoc; reflexivity.
Qed.

Lemma send_message_failed_connect_witness :
  fst (_send_message 3 [1%Z]
         (mkClientWorld (DVSClient_new "10.0.0.2" 2301) 0
                        [Some ConnectionRefusedError] []))
    = Raise ConnectionRefusedError.
Proof.
  rewrite (send_message_failed_connect 2 [1%Z]
             (mkClientWorld (DVSClient_new "10.0.0.2" 2301) 0
                            [Some ConnectionRefusedError] [])
             ConnectionRefusedError []); reflexivity.
Defined.

(** *** The client's messages, read by the server *)

Local Open Scope Z_scope.

Lemma le_bytes_cons (k : nat) (d m : Z) :
  is_octet d -> le_bytes (S k) (d + 256 * m) = d :: le_bytes k m.
Proof.
  unfold is_octet. intros Hd. cbn [le_bytes]. rewrite land_255, shiftr_8.
  f_equal.
  - symmetry. apply (Z.mod_unique _ _ m); lia.
  - f_equal. symmetry. apply (Z.div_unique _ _ _ d); lia.
Qed.

Lemma ipv4_int_nested (a b c d : Z) :
  ipv4_int a b c d = d + 256 * (c + 256 * (b + 256 * (a + 256 * 0))).
Proof.
  unfold ipv4_int. change (2 ^ 24) with 16777216.
  change (2 ^ 16) with 65536. change (2 ^ 8) with 256. lia.
Qed.

Lemma to_bytes_ipv4_int (a b c d : Z) :
  is_octet a -> is_octet b -> is_octet c -> is_octet d ->
  to_bytes (ipv4_int a b c d) 4 = Ok [d; c; b; a].
Proof.
  intros Ha Hb Hc Hd. unfold to_bytes. rewrite ipv4_int_nested.
  change (256 ^ Z.of_nat 4) with 4294967296.
  unfold is_octet in Ha, Hb, Hc, Hd.
  destruct (Z.leb_spec 0 (d + 256 * (c + 256 * (b + 256 * (a + 256 * 0)))));
    [| lia].
  destruct (Z.ltb_spec (d + 256 * (c + 256 * (b + 256 * (a + 256 * 0))))
                       4294967296); [| lia].
  simpl andb. cbv iota.
  rewrite !le_bytes_cons by (unfold is_octet; lia). reflexivity.
Qed.

(** The server prints the address the client's integer stands for. *)
Lemma str_of_ip_address_ipv4_int (a b c d : Z) :
  is_octet a -> is_octet b -> is_octet c -> is_octet d ->
  str_of_ip_address (ipv4_int a b c d) = dotted_quad a b c d.
Proof.
  intros Ha Hb Hc Hd. rewrite ipv4_int_nested.
  exact (str_of_ip_address_le d c b a Hd Hc Hb Ha).
Qed.

(** X11. A start request survives the wire: for a host the address parser
    reads as [a.b.c.d] and a uint16 port, [DVSClient.start_stream] on a
    connected client sends the single message
    [0, d, c, b, a, port low, port high], and [DVSServer._parse_command] on
    a message with these bytes makes exactly the call
    [start_stream("a.b.c.d", port)]. *)
Theorem start_stream_round_trip :
  forall (ip_address_int : string -> result Z) (depth : nat) (host : string)
         (port a b c d : Z) (w : client_world) (s : nat),
    ip_address_int host = Ok (ipv4_int a b c d) ->
    is_octet a -> is_octet b -> is_octet c -> is_octet d ->
    is_uint16 port ->
    sock (client w) = Some s -> script w = [] ->
    DVSClient_start_stream ip_address_int (S depth) host port w =
      (Ok PyNone,
       mkClientWorld (client w) (next_socket w) []
         (sock_trace w ++ [EvSend s ([0; d; c; b; a] ++ uint16_le port)]))
    /\ forall (bs : list Byte.byte) (calls : list streamer_call),
        map Z_of_byte bs = [0; d; c; b; a] ++ uint16_le port ->
        _parse_command bs calls =
          (Ok PyNone, calls ++ [CallStart (dotted_quad a b c d) port]).
Proof.
  intros ip_address_int depth host port a b c d w s Hip Ha Hb Hc Hd Hport
         Hs Hsc.
  split.
  - unfold DVSClient_start_stream, iobind, lift.
    cbn [zeros repeat setitem length Nat.ltb Nat.leb Z.leb Z.ltb Z.compare andb].
    rewrite Hip, (to_bytes_ipv4_int a b c d Ha Hb Hc Hd),
      (to_bytes_uint16 port Hport).
    cbn [_send_message]. unfold try_except. rewrite sock_send_cases, Hs, Hsc.
    reflexivity.
  - intros bs calls Hbs. unfold uint16_le in Hbs. cbn [app] in Hbs.
    destruct bs as [| b0 [| b1 [| b2 [| b3 [| b4 [| p0 [| p1 [| extra bs]]]]]]]];
      try discriminate Hbs.
    cbn [map] in Hbs. injection Hbs as H0 H1 H2 H3 H4 H5 H6.
    apply Z_of_byte_zero in H0. subst b0.
    rewrite parse_command_start.
    change (slice [Byte.x00; b1; b2; b3; b4; p0; p1] 1 5) with [b1; b2; b3; b4].
    change (slice [Byte.x00; b1; b2; b3; b4; p0; p1] 5 7) with [p0; p1].
    cbn [map]. rewrite H1, H2, H3, H4, H5, H6.
    rewrite (str_of_ip_address_le d c b a Hd Hc Hb Ha).
    cbn [from_bytes start_stream Recorder].
    do 4 f_equal.
    pose proof (Z.div_mod port 256 ltac:(lia)). lia.
Qed.

Lemma start_stream_round_trip_witness :
  DVSClient_start_stream ClientExamples.ip_address_int 1 "192.168.1.10" 4301
    Examples.client_connected =
    (Ok PyNone,
     mkClientWorld (mkDVSClient (Some 0%nat) ("10.0.0.2"%string, 2301))
       1 [] [EvSend 0 [0; 10; 1; 168; 192; 205; 16]])
  /\ _parse_command
       [Byte.x00; Byte.x0a; Byte.x01; Byte.xa8; Byte.xc0; Byte.xcd; Byte.x10]
       [] = (Ok PyNone, [CallStart "192.168.1.10" 4301]).
Proof.
  destruct (start_stream_round_trip ClientExamples.ip_address_int 0
              "192.168.1.10" 4301 192 168 1 10 Examples.client_connected 0%nat)
    as [Hsend Hparse];
    try reflexivity; try (unfold is_octet, is_uint16; lia).
  split; [exact Hsend |].
  apply (Hparse [Byte.x00; Byte.x0a; Byte.x01; Byte.xa8; Byte.xc0; Byte.xcd;
                 Byte.x10] []).
  reflexivity.
Defined.

(** X12. A stop request survives the wire: on a connected client, with
    nothing failing, [DVSClient.stop_stream] sends the single byte 1 on
    the socket, closes that socket and forgets it; the server reads a
    message with this byte as one [stop_stream()] call, for any streamer. *)
Theorem stop_stream_round_trip :
  forall (depth : nat) (w : client_world) (s : nat),
    sock (client w) = Some s -> script w = [] ->
    DVSClient_stop_stream (S depth) w =
      (Ok PyNone,
       mkClientWorld (mkDVSClient None (address (client w))) (next_socket w) []
         (sock_trace w ++ [EvSend s [1]; EvClose s]))
    /\ forall (bs : list Byte.byte) (W : Type) (S : Streamer W) (sw : W),
        map Z_of_byte bs = [1] -> _parse_command bs sw = stop_stream sw.
Proof.
  intros depth w s Hs Hsc. split.
  - destruct w as [[s0 addr] n sc tr]. simpl in Hs, Hsc. subst s0 sc.
    cbn. rewrite <- !app_assoc. reflexivity.
  - intros bs W S sw Hbs.
    destruct bs as [| b0 [| b1 bs]]; try discriminate Hbs.
    cbn [map] in Hbs. injection Hbs as H0.
    apply parse_command_stop. rewrite H0. discriminate.
Qed.

Lemma stop_stream_round_trip_witness :
  DVSClient_stop_stream 1 Examples.client_connected =
    (Ok PyNone,
     mkClientWorld (mkDVSClient None ("10.0.0.2"%string, 2301)) 1 []
       [EvSend 0 [1]; EvClose 0])
  /\ _parse_command [Byte.x01] ([] : list streamer_call)
     = (Ok PyNone, [CallStop]).
Proof.
  destruct (stop_stream_round_trip 0 Examples.client_connected 0%nat
              eq_refl eq_refl) as [Hsend Hparse].
  split; [exact Hsend |].
  rewrite (Hparse [Byte.x01] _ Recorder [] eq_refl). reflexivity.
Defined.

End ClientFacts.

(** ** More on the streamer and the connection handler *)

Module StreamerFacts.
Import Py Network Server LinkSpec ServerFacts StopFacts.

Ltac script_cases :=
  repeat match goal with
         | |- context [match ?sc with [] => _ | _ :: _ => _ end] =>
             destruct sc as [| [? |] ?]; cbn -[split String.append str_of_Z]
         end.

(** X13. [AEStreamer.stop_stream()] never raises and is all or nothing on
    the handles: either every external call went through, then both
    handles are [None] and the calls made are exactly the stop sequence;
    or one of them failed, then both handles are as before and the last
    thing done is the warning. *)
Theorem AEStreamer_stop_all_or_nothing :
  forall w : ae_world,
    fst (AEStreamer_stop_stream w) = Ok PyNone
    /\ ((streamer (snd (AEStreamer_stop_stream w)) =
           mkAEStreamer None None (camera_string (streamer w))
         /\ ae_trace (snd (AEStreamer_stop_stream w)) =
              ae_trace w ++ stop_events (streamer w))
        \/ (streamer (snd (AEStreamer_stop_stream w)) = streamer w
            /\ last (ae_trace (snd (AEStreamer_stop_stream w))) =
                 Some (EvWarning "Error when closing aestream"))).
Proof.
  intros [[a l cs] cam nh sc tr].
  split; [apply AEStreamer_stop_stream_returns |].
  unfold AEStreamer_stop_stream, try_except, iobind, get, call, set_streamer,
    modify, ret, warning.
  destruct a as [h |], l as [hl |];
    cbn -[split String.append str_of_Z]; script_cases;
    first [ left; split; [reflexivity |];
            unfold stop_events; cbn [aestream aestream_log app];
            rewrite <- ?app_assoc; reflexivity
          | right; split; [reflexivity | apply last_snoc] ].
Qed.

(** X14. When [terminate()] goes through and [wait(1)] raises (the
    process did not exit within the second), [stop_stream] goes straight
    to the warning: [kill()] is never called, [pkill] is not run and both
    handles are kept. *)
Theorem AEStreamer_stop_wait_timeout :
  forall (w : ae_world) (h : nat) (e : exn) (rest : list (option exn)),
    aestream (streamer w) = Some h ->
    ae_script w = None :: Some e :: rest ->
    AEStreamer_stop_stream w =
      (Ok PyNone,
       mkAEWorld (streamer w) (camera w) (next_handle w) rest
         (ae_trace w ++
            [EvTerminate h; EvWait h (Some 1%Z);
             EvWarning "Error when closing aestream"])).
Proof.
  intros [[a l cs] cam nh sc tr] h e rest Ha Hsc. simpl in Ha, Hsc.
  subst a sc. cbn. rewrite <- !app_assoc. reflexivity.
Qed.

Lemma AEStreamer_stop_wait_timeout_witness :
  AEStreamer_stop_stream
    (mkAEWorld (mkAEStreamer (Some 0%nat) (Some 1%nat) (Some "dvx"%string))
               "dvx" 2 [None; Some TimeoutExpired] []) =
    (Ok PyNone,
     mkAEWorld (mkAEStreamer (Some 0%nat) (Some 1%nat) (Some "dvx"%string))
               "dvx" 2 []
               [EvTerminate 0; EvWait 0 (Some 1%Z);
                EvWarning "Error when closing aestream"]).
Proof.
  apply (AEStreamer_stop_wait_timeout
           (mkAEWorld (mkAEStreamer (Some 0%nat) (Some 1%nat) (Some "dvx"%string))
                      "dvx" 2 [None; Some TimeoutExpired] [])
           0%nat TimeoutExpired []); reflexivity.
Defined.

(** X15. Without a camera, starting is a no-op: when the camera lookup
    raises, [start_stream] on an idle streamer logs a warning and returns
    without raising, without spawning a process and without touching the
    handles. *)
Theorem AEStreamer_start_without_camera :
  forall (w : ae_world) (host : string) (port : Z) (e : exn)
         (rest : list (option exn)),
    aestream (streamer w) = None ->
    ae_script w = Some e :: rest ->
    AEStreamer_start_stream host port w =
      (Ok PyNone,
       mkAEWorld (streamer w) (camera w) (next_handle w) rest
         (ae_trace w ++ [EvIdentifyCamera; EvWarning "No camera found"])).
Proof.
  intros [[a l cs] cam nh sc tr] host port e rest Ha Hsc. simpl in Ha, Hsc.
  subst a sc. cbn -[split String.append str_of_Z].
  rewrite <- !app_assoc. reflexivity.
Qed.

Lemma AEStreamer_start_without_camera_witness :
  AEStreamer_start_stream "10.0.0.2" 4301
    (mkAEWorld (mkAEStreamer None None None) "dvx" 0 [Some OSError] []) =
    (Ok PyNone,
     mkAEWorld (mkAEStreamer None None None) "dvx" 0 []
               [EvIdentifyCamera; EvWarning "No camera found"]).
Proof.
  apply (AEStreamer_start_without_camera
           (mkAEWorld (mkAEStreamer None None None) "dvx" 0 [Some OSError] [])
           "10.0.0.2" 4301 OSError []); reflexivity.
Defined.

(** [start_stream] when no external call fails. *)
Lemma AEStreamer_start_cooperative :
  forall (w : ae_world) (host : string) (port : Z),
    ae_script w = [] ->
    AEStreamer_start_stream host port w =
      (Ok PyNone,
       mkAEWorld
         (mkAEStreamer (Some (next_handle w)) (Some (S (next_handle w)))
                       (Some (camera w)))
         (camera w) (S (S (next_handle w))) []
         (ae_trace w ++
            match aestream (streamer w) with
            | Some _ => stop_events (streamer w)
            | None => []
            end ++
            [EvIdentifyCamera;
             EvPopen (next_handle w) (argv w host port);
             EvProcessStart (S (next_handle w))])).
Proof.
  intros [[a l cs] cam nh sc tr] host port Hsc. simpl in Hsc. subst sc.
  unfold argv.
  destruct a as [h |], l as [hl |];
    cbn -[split String.append str_of_Z];
    unfold stop_events; cbn [aestream aestream_log app];
    rewrite <- ?app_assoc; reflexivity.
Qed.



(** X17. With nothing failing, [start_stream] followed by [stop_stream]
    ends on a stopped streamer, and the stop terminates, waits for and
    kills exactly the process the start spawned, and terminates and joins
    its log reader. *)
Theorem AEStreamer_start_then_stop :
  forall (w : ae_world) (host : string) (port : Z),
    ae_script w = [] ->
    exists w1 : ae_world,
      AEStreamer_start_stream host port w = (Ok PyNone, w1)
      /\ AEStreamer_stop_stream w1 =
           (Ok PyNone,
            mkAEWorld (mkAEStreamer None None (Some (camera w))) (camera w)
              (S (S (next_handle w))) []
              (ae_trace w1 ++
                 [EvTerminate (next_handle w);
                  EvWait (next_handle w) (Some 1%Z);
                  EvKill (next_handle w);
                  EvWait (next_handle w) None;
                  EvTerminate (S (next_handle w));
                  EvJoin (S (next_handle w));
                  EvRun ["pkill"; "aestream"]%string])).
Proof.
  intros w host port Hsc.
  eexists. split; [apply AEStreamer_start_cooperative; exact Hsc |].
  cbn -[split String.append str_of_Z argv stop_events].
  rewrite <- !app_assoc. reflexivity.
Qed.

Lemma AEStreamer_start_then_stop_witness :
  exists w1 : ae_world,
    AEStreamer_start_stream "10.0.0.2" 4301 Examples.ae_idle = (Ok PyNone, w1)
    /\ streamer (snd (AEStreamer_stop_stream w1))
       = mkAEStreamer None None (Some "dvx"%string).
Proof.
  destruct (AEStreamer_start_then_stop Examples.ae_idle "10.0.0.2" 4301 eq_refl)
    as (w1 & Hstart & Hstop).
  exists w1. split; [exact Hstart |]. rewrite Hstop. reflexivity.
Defined.

(** *** [DVSServer.client_loop] *)

Lemma parse_command_recorder (msg : list Byte.byte)
    (calls : list streamer_call) :
  _parse_command msg calls = (Ok PyNone, calls ++ dispatch msg).
Proof.
  destruct msg as [| b rest].
  - cbn. rewrite app_nil_r. reflexivity.
  - unfold _parse_command, dispatch, iobind, lift.
    cbn [length Nat.eqb getitem lookup list_lookup].
    destruct (Z_of_byte b =? 0)%Z; reflexivity.
Qed.

Lemma client_loop_body_recorder (msgs : list (list Byte.byte)) (e : exn) :
  forall calls : list streamer_call,
    client_loop_body msgs e calls =
      (Raise e, calls ++ concat (map dispatch msgs)).
Proof.
  induction msgs as [| msg rest IH]; intros calls.
  - cbn. rewrite app_nil_r. reflexivity.
  - cbn [client_loop_body map concat]. unfold iobind.
    rewrite parse_command_recorder, IH, app_assoc. reflexivity.
Qed.

(** X18. Over a connection that delivers the messages [msgs] and then
    fails, [client_loop] makes on its streamer exactly the calls the
    messages stand for, in order (none for an empty message), followed by
    one final [stop_stream()], and returns. *)
Theorem client_loop_calls :
  forall (msgs : list (list Byte.byte)) (e : exn)
         (calls : list streamer_call),
    client_loop msgs e calls =
      (Ok PyNone, calls ++ concat (map dispatch msgs) ++ [CallStop]).
Proof.
  intros msgs e calls. unfold client_loop, try_except.
  rewrite client_loop_body_recorder. cbn. rewrite <- app_assoc. reflexivity.
Qed.



End StreamerFacts.

(** ** More on the telemetry aggregator *)

Module AggregatorFacts.
Import Py Sensor SensorSpec SensorBlocks SensorFacts.

Lemma array_setslice_raises {A : Type} (arr : list A) (a b : nat)
    (vals : list A) :
  a <= b -> b <= length arr -> length vals <> b - a ->
  array_setslice arr a b vals = Raise ValueError.
Proof.
  intros Hab Hb Hlen. unfold array_setslice.
  rewrite (Nat.min_l a) by lia. rewrite (Nat.min_l b) by lia.
  rewrite (Nat.max_r a b) by lia.
  destruct (Nat.eqb_spec (length vals) (b - a)); [contradiction | reflexivity].
Qed.

(** A slice assignment never changes the size of the array. *)
Lemma array_setslice_length {A : Type} (arr arr' : list A) (a b : nat)
    (vals : list A) :
  array_setslice arr a b vals = Ok arr' -> length arr' = length arr.
Proof.
  unfold array_setslice.
  destruct (Nat.eqb_spec (length vals)
              (Nat.max (Nat.min a (length arr)) (Nat.min b (length arr))
               - Nat.min a (length arr))) as [Hlen | _]; [| discriminate].
  intros Heq. injection Heq as <-.
  rewrite !length_app, length_take, length_drop, Hlen. lia.
Qed.

Lemma repeat_lookup_eq {A : Type} (d : A) :
  forall (n : nat) (l : list A),
    length l = n -> (forall p : nat, p < n -> l !! p = Some d) ->
    l = repeat d n.
Proof.
  induction n as [| n IH]; intros l Hlen Hall.
  - destruct l; [reflexivity | discriminate].
  - destruct l as [| x l]; [discriminate |].
    cbn [repeat]. f_equal.
    + specialize (Hall 0 ltac:(lia)). injection Hall as ->. reflexivity.
    + apply IH; [simpl in Hlen; lia |].
      intros p Hp. apply (Hall (S p)). lia.
Qed.

(** Every slot of a ring is reached within one turn. *)
Lemma mod_cover (c cap p : nat) :
  c < cap -> p < cap -> exists j : nat, j < cap /\ (c + j) mod cap = p.
Proof.
  intros Hc Hp. destruct (le_lt_dec c p) as [Hle | Hlt].
  - exists (p - c). split; [lia |].
    replace (c + (p - c)) with p by lia. apply Nat.mod_small. exact Hp.
  - exists (cap - c + p). split; [lia |].
    replace (c + (cap - c + p)) with (p + 1 * cap) by lia.
    rewrite Nat.Div0.mod_add. apply Nat.mod_small. exact Hp.
Qed.

Section Aggregator.
Context {num : Type} {F : Float num}.
Variable sensors : SENSORS.

Lemma consume_blocks (s : Z) (data : payload num) (now : num) :
  consume sensors (s, data) now =
    (tof_block sensors s data ;; misc_block sensors s data ;; update_hz now)%py.
Proof. reflexivity. Qed.

Lemma tof_block_wf (s : Z) (data : payload num) (w : shared num) :
  shared_wf w -> shared_wf (snd (tof_block sensors s data w)).
Proof.
  intros Hw. unfold tof_block.
  destruct ((tof_a sensors <=? s)%Z && (s <=? tof_d sensors)%Z);
    [| exact Hw].
  cbv zeta. unfold iobind, lift, get.
  destruct data as [flat | c v i]; cbn [reshape_flat]; [| exact Hw].
  destruct (array_setslice (tof w) _ _ (map c_float flat)) as [tof' |] eqn:Hset;
    [| exact Hw].
  apply array_setslice_length in Hset.
  destruct Hw as (Ht & Hi & Hrb & Hidx).
  unfold shared_wf. cbn. rewrite Hset. repeat split; assumption.
Qed.

Lemma misc_block_wf (s : Z) (data : payload num) (w : shared num) :
  shared_wf w -> shared_wf (snd (misc_block sensors s data w)).
Proof.
  intros Hw. unfold misc_block.
  destruct (s =? misc sensors)%Z; [| exact Hw].
  unfold iobind, lift, get.
  destruct data as [flat | c v i]; cbn [misc_fields]; [exact Hw |].
  cbn [set_charge set_voltage modify imu].
  destruct (array_setslice (imu w) 0 (length (imu w)) i) as [imu' |] eqn:Hset.
  - apply array_setslice_length in Hset.
    destruct Hw as (Ht & Hi & Hrb & Hidx).
    unfold shared_wf. cbn. rewrite Hset. repeat split; assumption.
  - destruct Hw as (Ht & Hi & Hrb & Hidx).
    unfold shared_wf. cbn. repeat split; assumption.
Qed.

(** X20. The shared arrays keep their sizes: whatever the item and
    whether [consume] returns or raises, the depth volume stays 512 cells,
    [imu] 9, the ring buffer 50, and the ring-buffer index stays inside
    the ring buffer. *)
Theorem consume_keeps_sizes :
  forall (item : Z * payload num) (now : num) (w : shared num),
    shared_wf w -> shared_wf (snd (consume sensors item now w)).
Proof.
  intros [s data] now w Hw. rewrite consume_blocks. unfold iobind.
  pose proof (tof_block_wf s data w Hw) as H1.
  destruct (tof_block sensors s data w) as [[u | e] w1]; [| exact H1].
  cbn [snd] in H1.
  pose proof (misc_block_wf s data w1 H1) as H2.
  destruct (misc_block sensors s data w1) as [[u2 | e] w2]; [| exact H2].
  cbn [snd] in H2.
  rewrite update_hz_ok by (destruct H2 as (_ & _ & Hrb & Hidx); lia).
  apply push_delta_wf. exact H2.
Qed.

(** X21. A depth packet that does not carry exactly 2x8x8 values is
    refused as a whole: [consume] raises [ValueError] and the shared
    state, the frequency estimator included, is exactly as before. The
    same holds, with [AttributeError], when the payload is not an array. *)
Theorem consume_malformed_depth :
  sensors_wf sensors ->
  forall (s : Z) (now : num) (w : shared num),
    shared_wf w -> is_tof sensors s ->
    (forall flat : list num,
        length flat <> 128 ->
        consume sensors (s, ArrayData flat) now w = (Raise ValueError, w))
    /\ forall (c v : num) (i : list num),
        consume sensors (s, MiscData c v i) now w = (Raise AttributeError, w).
Proof.
  intros Hs s now w (Htof & _) Hin.
  pose proof (tof_index sensors s Hs Hin) as Hk.
  assert (Hr : (tof_a sensors <=? s)%Z && (s <=? tof_d sensors)%Z = true).
  { unfold is_tof in Hin. apply andb_true_iff. split; apply Z.leb_le; lia. }
  split.
  - intros flat Hflat. rewrite consume_blocks. unfold tof_block.
    rewrite Hr. cbv zeta. unfold iobind, lift, get. cbn [reshape_flat].
    rewrite array_setslice_raises by (rewrite ?length_map; lia).
    reflexivity.
  - intros c v i. rewrite consume_blocks. unfold tof_block.
    rewrite Hr. reflexivity.
Qed.

(** X22. A [misc] packet whose [imu] is not 3x3 is refused too late:
    [consume] raises [ValueError] after [charge] and [voltage] have
    already been overwritten; the depth volume, [imu] and the frequency
    estimator are as before. *)
Theorem consume_malformed_misc :
  sensors_wf sensors ->
  forall (c v : num) (i : list num) (now : num) (w : shared num),
    shared_wf w -> length i <> 9 ->
    consume sensors (misc sensors, MiscData c v i) now w =
      (Raise ValueError,
       mkShared (tof w) (c_float c) (c_float v) (imu w) (uwb w)
                (ringbuffer w) (ringbuffer_idx w) (timestamp_update w)).
Proof.
  intros Hs c v i now w (_ & Himu & _) Hi.
  assert (Hr : (tof_a sensors <=? misc sensors)%Z
               && (misc sensors <=? tof_d sensors)%Z = false).
  { unfold sensors_wf in Hs. apply andb_false_iff.
    destruct (Z.leb_spec (tof_a sensors) (misc sensors));
      [right | left; reflexivity].
    apply Z.leb_gt. lia. }
  rewrite consume_blocks. unfold tof_block, misc_block.
  rewrite Hr, Z.eqb_refl.
  unfold iobind, lift, get, ret, set_charge, set_voltage, modify.
  cbn [misc_fields imu].
  rewrite array_setslice_raises by lia.
  reflexivity.
Qed.

(** X23. A snapshot shows the last packet: after a well-formed [misc]
    packet is consumed, [read()] reports its charge and voltage (narrowed
    to single precision) and its [imu], with the depth volume and [uwb]
    as before. *)
Theorem read_after_misc :
  sensors_wf sensors ->
  forall (c v : num) (i : list num) (now : num) (w : shared num),
    shared_wf w -> length i = 9 ->
    let obs := read (snd (consume sensors (misc sensors, MiscData c v i) now w)) in
    fst (consume sensors (misc sensors, MiscData c v i) now w) = Ok PyNone
    /\ obs_charge obs = c_float c /\ obs_voltage obs = c_float v
    /\ obs_imu obs = i
    /\ obs_tof obs = obs_tof (read w) /\ obs_uwb obs = obs_uwb (read w).
Proof.
  intros Hs c v i now w Hw Hi obs. subst obs.
  rewrite (consume_misc sensors c v i now w Hs Hw Hi).
  repeat split.
Qed.

Lemma deltas_length (last : num) (times : list num) :
  length (deltas last times) = length times.
Proof.
  revert last. induction times as [| t ts IH]; intros last; [reflexivity |].
  cbn [deltas length]. rewrite IH. reflexivity.
Qed.

(** X24. At a steady rate the estimator forgets its past: after a run of
    at least 50 well-formed items whose inter-update deltas all equal
    [d], every entry of the ring buffer is [d], so [read()] reports
    1 / (mean of fifty [d] + 1e-7). *)
Theorem steady_rate_fills_ring :
  sensors_wf sensors ->
  forall (w : shared num) (run : list ((Z * payload num) * num)) (d : num),
    shared_wf w -> Forall (well_shaped sensors) (map fst run) ->
    Forall (fun x => x = d) (deltas (timestamp_update w) (map snd run)) ->
    50 <= length run ->
    exists w' : shared num,
      consume_all sensors run w = (Ok PyNone, w')
      /\ ringbuffer w' = repeat d 50
      /\ obs_frequency (read w') =
           fdiv fone (fadd (fmean (repeat d 50)) feps).
Proof.
  intros Hs w run d Hw Hall Hd Hn.
  destruct (consume_all_ring sensors run Hs w Hw Hall)
    as (w' & Hrun & Hw' & Hpush).
  destruct Hw as (_ & _ & Hlen & Hlt).
  destruct (push_all_spec (deltas (timestamp_update w) (map snd run))
              (mkRingBuffer (ringbuffer w) (ringbuffer_idx w)))
    as (rb' & Hpush' & _ & _ & Hlatest & _);
    [cbn [buffer counter]; lia |].
  rewrite Hpush in Hpush'. injection Hpush' as <-.
  cbn [buffer counter] in Hlatest. rewrite Hlen in Hlatest.
  rewrite deltas_length, length_map in Hlatest.
  assert (Hring : ringbuffer w' = repeat d 50).
  { apply repeat_lookup_eq; [apply Hw' |].
    intros p Hp.
    set (n := length run) in *.
    destruct (mod_cover ((ringbuffer_idx w + (n - 50)) mod 50) 50 p)
      as (j & Hj & Hslot); [apply Nat.mod_upper_bound; lia | exact Hp |].
    rewrite Nat.Div0.add_mod_idemp_l in Hslot.
    replace (ringbuffer_idx w + (n - 50) + j)
      with (ringbuffer_idx w + (n - 50 + j)) in Hslot by lia.
    rewrite <- Hslot. apply Hlatest; [| lia].
    assert (Hsome : is_Some (deltas (timestamp_update w) (map snd run)
                               !! (n - 50 + j))).
    { apply lookup_lt_is_Some. rewrite deltas_length, length_map. lia. }
    destruct Hsome as [x Hx]. rewrite Hx. f_equal.
    exact (proj1 (Forall_lookup _ _) Hd _ _ Hx). }
  exists w'. split; [exact Hrun |]. split; [exact Hring |].
  cbn [read obs_frequency]. rewrite Hring. reflexivity.
Qed.

(** What two depth packets leave in the depth volume. *)
Lemma store_tof_twice_lookup (k1 k2 : nat) (A B : list num) (w : shared num)
    (i : nat) :
  k1 + 2 <= 8 -> k2 + 2 <= 8 -> length A = 128 -> length B = 128 ->
  length (tof w) = 512 ->
  tof (store_tof k2 B (store_tof k1 A w)) !! i =
    if decide (k2 * 64 <= i < (k2 + 2) * 64)
    then map c_float B !! (i - k2 * 64)
    else if decide (k1 * 64 <= i < (k1 + 2) * 64)
         then map c_float A !! (i - k1 * 64)
         else tof w !! i.
Proof.
  intros H1 H2 HA HB Ht. unfold store_tof at 1. cbn [tof].
  assert (Ht1 : length (tof (store_tof k1 A w)) = 512).
  { unfold store_tof. cbn [tof].
    rewrite !length_app, length_take, length_drop, length_map. lia. }
  rewrite lookup_splice by (rewrite ?length_map; lia).
  destruct (decide (k2 * 64 <= i < (k2 + 2) * 64)) as [Hin2 | Hout2].
  - destruct (decide (i < k2 * 64)); [lia |].
    destruct (decide (i < (k2 + 2) * 64)); [reflexivity | lia].
  - assert (Hrest : tof (store_tof k1 A w) !! i =
                    if decide (k1 * 64 <= i < (k1 + 2) * 64)
                    then map c_float A !! (i - k1 * 64)
                    else tof w !! i).
    { unfold store_tof. cbn [tof].
      rewrite lookup_splice by (rewrite ?length_map; lia).
      destruct (decide (k1 * 64 <= i < (k1 + 2) * 64)).
      - destruct (decide (i < k1 * 64)); [lia |].
        destruct (decide (i < (k1 + 2) * 64)); [reflexivity | lia].
      - destruct (decide (i < k1 * 64)); [reflexivity |].
        destruct (decide (i < (k1 + 2) * 64)); [lia | reflexivity]. }
    destruct (decide (i < k2 * 64)); [exact Hrest |].
    destruct (decide (i < (k2 + 2) * 64)); [lia | exact Hrest].
Qed.

(** X25. Depth packets are last-writer-wins per sensor and independent
    across sensors: two packets of the same depth sensor leave the depth
    volume the second alone would leave, and packets of two different
    depth sensors leave the same depth volume in either order. *)
Theorem depth_packets_compose :
  sensors_wf sensors ->
  forall (w : shared num) (s1 s2 : Z) (A B : list num) (t1 t2 : num),
    shared_wf w -> is_tof sensors s1 -> is_tof sensors s2 ->
    length A = 128 -> length B = 128 ->
    let after (first second : Z * payload num) :=
      tof (snd ((consume sensors first t1 ;; consume sensors second t2)%py w)) in
    (s1 = s2 ->
       after (s1, ArrayData A) (s2, ArrayData B) =
         tof (snd (consume sensors (s2, ArrayData B) t2 w)))
    /\ (s1 <> s2 ->
       after (s1, ArrayData A) (s2, ArrayData B) =
         after (s2, ArrayData B) (s1, ArrayData A)).
Proof.
  intros Hs w s1 s2 A B t1 t2 Hw H1 H2 HA HB after. subst after. cbv beta.
  pose proof (tof_index sensors s1 Hs H1) as Hk1.
  pose proof (tof_index sensors s2 Hs H2) as Hk2.
  set (k1 := Z.to_nat ((s1 - tof_a sensors) * 2)) in *.
  set (k2 := Z.to_nat ((s2 - tof_a sensors) * 2)) in *.
  assert (Hrun : forall (sa sb : Z) (X Y : list num),
             is_tof sensors sa -> is_tof sensors sb ->
             length X = 128 -> length Y = 128 ->
             tof (snd ((consume sensors (sa, ArrayData X) t1 ;;
                        consume sensors (sb, ArrayData Y) t2)%py w)) =
               tof (store_tof (Z.to_nat ((sb - tof_a sensors) * 2)) Y
                      (store_tof (Z.to_nat ((sa - tof_a sensors) * 2)) X w))).
  { intros sa sb X Y Ha Hb HX HY. unfold iobind.
    rewrite (consume_tof sensors sa X t1 w Hs Hw Ha HX).
    rewrite consume_tof; try assumption.
    - reflexivity.
    - apply push_delta_wf, store_tof_wf;
        [apply (tof_index sensors sa Hs Ha) | assumption ..]. }
  split.
  - intros Heq. rewrite Hrun by assumption.
    rewrite (consume_tof sensors s2 B t2 w Hs Hw H2 HB).
    cbn [snd push_delta tof]. fold k1 k2.
    assert (Hk : k1 = k2) by (unfold k1, k2; rewrite Heq; reflexivity).
    apply list_eq. intros i.
    rewrite store_tof_twice_lookup by (try assumption; apply Hw).
    unfold store_tof. cbn [tof].
    rewrite lookup_splice by (rewrite ?length_map; destruct Hw; lia).
    rewrite Hk.
    destruct (decide (k2 * 64 <= i < (k2 + 2) * 64)).
    + destruct (decide (i < k2 * 64)); [lia |].
      destruct (decide (i < (k2 + 2) * 64)); [reflexivity | lia].
    + destruct (decide (i < k2 * 64)); [reflexivity |].
      destruct (decide (i < (k2 + 2) * 64)); [lia | reflexivity].
  - intros Hne. rewrite !Hrun by assumption. fold k1 k2.
    assert (Hk : k1 + 2 <= k2 \/ k2 + 2 <= k1)
      by (unfold k1, k2, is_tof, sensors_wf in *; lia).
    apply list_eq. intros i.
    rewrite !store_tof_twice_lookup by (try assumption; apply Hw).
    destruct (decide (k2 * 64 <= i < (k2 + 2) * 64));
      destruct (decide (k1 * 64 <= i < (k1 + 2) * 64));
      first [reflexivity | lia].
Qed.

End Aggregator.

End AggregatorFacts.

(** ** The aggregator on concrete packets, continued *)

Module AggregatorRuns.
Import Py Sensor SensorSpec SensorFacts AggregatorFacts QArith Examples.
Local Open Scope nat_scope.

Lemma consume_keeps_sizes_witness :
  shared_wf
    (snd (consume Examples.sensors (129%Z, ArrayData [(5 # 1)%Q]) (1 # 1)%Q
            (DurinSensor_new (0 # 1)%Q))).
Proof.
  apply (consume_keeps_sizes Examples.sensors (129%Z, ArrayData [(5 # 1)%Q])
           (1 # 1)%Q (DurinSensor_new (0 # 1)%Q)).
  unfold shared_wf. simpl. lia.
Defined.

Lemma consume_malformed_depth_witness :
  consume Examples.sensors (129%Z, ArrayData [(5 # 1)%Q]) (1 # 1)%Q
    (DurinSensor_new (0 # 1)%Q)
    = (Raise ValueError, DurinSensor_new (0 # 1)%Q).
Proof.
  apply (proj1 (consume_malformed_depth Examples.sensors
                  ltac:(unfold sensors_wf; simpl; lia) 129%Z (1 # 1)%Q
                  (DurinSensor_new (0 # 1)%Q)
                  ltac:(unfold shared_wf; simpl; lia)
                  ltac:(unfold is_tof; simpl; lia))).
  simpl. lia.
Defined.

Lemma consume_malformed_misc_witness :
  consume Examples.sensors (132%Z, MiscData (80 # 1)%Q (12 # 1)%Q [])
    (1 # 1)%Q (DurinSensor_new (0 # 1)%Q)
    = (Raise ValueError,
       mkShared (repeat (0 # 1)%Q 512) (80 # 1)%Q (12 # 1)%Q
                (repeat (0 # 1)%Q 9) (0 # 1)%Q (repeat (0 # 1)%Q 50) 0
                (0 # 1)%Q).
Proof.
  apply (consume_malformed_misc Examples.sensors
           ltac:(unfold sensors_wf; simpl; lia) (80 # 1)%Q (12 # 1)%Q []
           (1 # 1)%Q (DurinSensor_new (0 # 1)%Q)
           ltac:(unfold shared_wf; simpl; lia)).
  simpl. lia.
Defined.

Lemma read_after_misc_witness :
  obs_charge
    (read (snd (consume Examples.sensors
                  (132%Z, MiscData (80 # 1)%Q (12 # 1)%Q (repeat (3 # 1)%Q 9))
                  (1 # 1)%Q (DurinSensor_new (0 # 1)%Q))))
    = (80 # 1)%Q.
Proof.
  apply (read_after_misc Examples.sensors
           ltac:(unfold sensors_wf; simpl; lia) (80 # 1)%Q (12 # 1)%Q
           (repeat (3 # 1)%Q 9) (1 # 1)%Q (DurinSensor_new (0 # 1)%Q)
           ltac:(unfold shared_wf; simpl; lia) eq_refl).
Defined.

Lemma steady_rate_fills_ring_witness :
  exists w' : shared Q,
    consume_all Examples.sensors steady_run (DurinSensor_new (0 # 1)%Q)
      = (Ok PyNone, w')
    /\ ringbuffer w' = repeat (1 # 1)%Q 50.
Proof.
  destruct (steady_rate_fills_ring Examples.sensors
              ltac:(unfold sensors_wf; simpl; lia)
              (DurinSensor_new (0 # 1)%Q) steady_run (1 # 1)%Q)
    as (w' & Hrun & Hring & _).
  - unfold shared_wf. simpl. lia.
  - apply List.Forall_forall. intros x Hx.
    apply in_map_iff in Hx as ([it t] & Hit & Hin). simpl in Hit. subst x.
    unfold steady_run in Hin.
    apply in_map_iff in Hin as (k & Heq & _). injection Heq as <- _.
    split.
    + unfold is_tof. simpl. lia.
    + simpl. discriminate.
  - vm_compute. repeat constructor.
  - vm_compute. apply le_n.
  - exists w'. split; [exact Hrun | exact Hring].
Defined.

Lemma depth_packets_compose_witness :
  tof (snd ((consume Examples.sensors (128%Z, ArrayData (repeat (1 # 1)%Q 128))
               (1 # 1)%Q ;;
             consume Examples.sensors (129%Z, ArrayData (repeat (2 # 1)%Q 128))
               (2 # 1)%Q)%py (DurinSensor_new (0 # 1)%Q)))
  = tof (snd ((consume Examples.sensors (129%Z, ArrayData (repeat (2 # 1)%Q 128))
                 (1 # 1)%Q ;;
               consume Examples.sensors (128%Z, ArrayData (repeat (1 # 1)%Q 128))
                 (2 # 1)%Q)%py (DurinSensor_new (0 # 1)%Q))).
Proof.
  apply (proj2 (depth_packets_compose Examples.sensors
                  ltac:(unfold sensors_wf; simpl; lia)
                  (DurinSensor_new (0 # 1)%Q) 128%Z 129%Z
                  (repeat (1 # 1)%Q 128) (repeat (2 # 1)%Q 128)
                  (1 # 1)%Q (2 # 1)%Q
                  ltac:(unfold shared_wf; simpl; lia)
                  ltac:(unfold is_tof; simpl; lia)
                  ltac:(unfold is_tof; simpl; lia) eq_refl eq_refl)).
  lia.
Defined.

End AggregatorRuns.
